(** * Portfolio Showcase registration bot: gateway and dispatcher

    A shallow embedding of the Telegram registration bot: the persistence
    gateway ([isUserRegistered], [registerUser], [getRegisteredUserCount],
    [getRegisteredUsersList], [logAdminAction]) and the Telegraf handlers
    ([bot.start], [bot.action], [bot.help], the three admin commands,
    [bot.on('message')], [bot.catch]), with what Telegraf does around them
    ([bot.handleUpdate], the command triggers, [Markup.inlineKeyboard]).

    Conventions of the embedding.
    - An [async] function is a computation [Js A]: it takes the world and
      returns a completion (normal value, or a thrown error) with the new
      world.  [await e] is sequencing; a promise that is started and not
      awaited is [detached]: its effect happens, its rejection reaches nobody.
    - The two hosted services are collaborators.  The chat transport is the
      function [transport]; the database client is a record of queries
      ([Supabase]) of which [postgrest] is the reference behaviour over two
      tables.  Both take their faults from a script carried by the world, one
      entry per request, an exhausted script meaning a healthy service.
    - [calls] is a ghost trace: every gateway function records its invocation
      there, so that "the insert operation is never called" is a statement on
      the trace.  [outbox] records every transport request with its outcome.
    - JavaScript numbers that hold identifiers and tallies are integers [Z]
      (exact below 2^53); strings are sequences of code units below 256.  The
      few characters above that range in the bot's own message literals are
      written as their UTF-8 bytes: those literals are sent, never inspected.
    - Of the state of the Telegraf instance one piece is kept, [bot.botInfo]:
      it is an argument of [handleUpdate], [cached me] when an earlier update
      of the process has fetched the identity of the bot, [uncached me] on
      the first update of a process.
    - The [console.error] and [console.warn] lines that report a fault (those
      of the gateway's [logError], of the [catch] blocks and of a failed
      send) are kept in [console]; the fixed status lines written next to a
      reply and the informational [console.log] lines are left out.  Where
      such a line reads [ctx.from.id] the read is kept when it can fail (in
      [bot.on('message')]); in the administrator commands it comes behind
      [isAdmin], which has found the sender. *)

From Stdlib Require Import ZArith List String Ascii Bool Lia.
From Stdlib Require Import Decimal DecimalString DecimalPos DecimalZ.
Import ListNotations.

#[local] Open Scope string_scope.
#[local] Open Scope Z_scope.

(** ** JavaScript strings and numbers *)

(** The double quote, as one code unit. *)
Definition dquote : string := String (ascii_of_nat 34) EmptyString.

(** WhiteSpace and LineTerminator code units below 256: TAB, LF, VT, FF, CR,
    SP and NBSP. *)
Definition isWhiteSpace (c : ascii) : bool :=
  let n := nat_of_ascii c in
  ((9 <=? n)%nat && (n <=? 13)%nat) || (n =? 32)%nat || (n =? 160)%nat.

Definition isDigit (c : ascii) : bool :=
  let n := nat_of_ascii c in (48 <=? n)%nat && (n <=? 57)%nat.

Fixpoint trimStart (s : string) : string :=
  match s with
  | String c r => if isWhiteSpace c then trimStart r else s
  | EmptyString => EmptyString
  end.

Fixpoint trimEnd (s : string) : string :=
  match s with
  | String c r =>
      match trimEnd r with
      | EmptyString => if isWhiteSpace c then EmptyString else String c EmptyString
      | r' => String c r'
      end
  | EmptyString => EmptyString
  end.

(** [String.prototype.trim]. *)
Definition trim (s : string) : string := trimEnd (trimStart s).

(** [s.substring(n)]: the string without its first [n] code units. *)
Fixpoint substring_from (n : nat) (s : string) : string :=
  match n, s with
  | O, _ => s
  | S n', String _ r => substring_from n' r
  | S _, EmptyString => EmptyString
  end.

(** [s.startsWith(p)], returning what follows the prefix. *)
Fixpoint strip_prefix (p s : string) : option string :=
  match p, s with
  | EmptyString, _ => Some s
  | String a p', String b s' => if Ascii.eqb a b then strip_prefix p' s' else None
  | String _ _, EmptyString => None
  end.

Definition startsWith (s p : string) : bool :=
  match strip_prefix p s with Some _ => true | None => false end.

(** [s.toLowerCase()] on code units below 256: the letters A-Z and the
    capital letters of the upper half (all of 192-222 but the multiplication
    sign) are moved by 32. *)
Definition lowerCase (c : ascii) : ascii :=
  let n := nat_of_ascii c in
  if ((65 <=? n)%nat && (n <=? 90)%nat)
     || ((192 <=? n)%nat && (n <=? 222)%nat && negb (n =? 215)%nat)
  then ascii_of_nat (n + 32)
  else c.

Fixpoint toLowerCase (s : string) : string :=
  match s with
  | String c r => String (lowerCase c) (toLowerCase r)
  | EmptyString => EmptyString
  end.

(** [s.split('@')]: its first piece, and what follows the first "@" when
    there is one. *)
Fixpoint before_at (s : string) : string :=
  match s with
  | String c r => if Ascii.eqb c "@" then EmptyString else String c (before_at r)
  | EmptyString => EmptyString
  end.

Fixpoint after_at (s : string) : option string :=
  match s with
  | String c r => if Ascii.eqb c "@" then Some r else after_at r
  | EmptyString => None
  end.

(** Longest prefix of decimal digits. *)
Fixpoint take_digits (s : string) : string :=
  match s with
  | String c r => if isDigit c then String c (take_digits r) else EmptyString
  | EmptyString => EmptyString
  end.

(** [parseInt(s, 10)]: leading white space is skipped, one sign is read, the
    longest run of digits is the value; no digit at all is [NaN] ([None]). *)
Definition parseInt (s : string) : option Z :=
  let s1 := trimStart s in
  let '(neg, s2) :=
    match s1 with
    | String "-"%char r => (true, r)
    | String "+"%char r => (false, r)
    | _ => (false, s1)
    end in
  match take_digits s2 with
  | EmptyString => None
  | ds =>
      match NilEmpty.uint_of_string ds with
      | Some d => Some (if neg then - Z.of_uint d else Z.of_uint d)
      | None => None
      end
  end.

(** [parseInt] of a value read from the environment: a missing variable is
    [undefined], which [parseInt] first turns into the string "undefined". *)
Definition parseInt_env (v : option string) : option Z :=
  parseInt (match v with Some s => s | None => "undefined" end).

(** A number in a template literal. *)
Definition string_of_Z (z : Z) : string := NilZero.string_of_int (Z.to_int z).

(** [a || d] on an optional string: [undefined] and the empty string are
    falsy. *)
Definition or_else (a : option string) (d : string) : string :=
  match a with
  | Some (String c r) => String c r
  | _ => d
  end.

Definition truthy (a : option string) : bool :=
  match a with
  | Some (String _ _) => true
  | _ => false
  end.

(** [xs.join(sep)]. *)
Fixpoint join (sep : string) (xs : list string) : string :=
  match xs with
  | [] => EmptyString
  | [x] => x
  | x :: rest => x ++ sep ++ join sep rest
  end.

(** The line feed of a template literal. *)
Definition nl : string := String (ascii_of_nat 10) EmptyString.

(** ** Data model *)

(** [ctx.from]. *)
Record User := mkUser {
  id : Z;
  username : option string;
  first_name : option string
}.

(** A row of [registrations]; the [userData] object of [registerUser]. *)
Record Registration := mkRegistration {
  telegram_id : Z;
  reg_username : option string;
  reg_first_name : string
}.

(** What [select('telegram_id, username')] returns for a row. *)
Record UserRow := mkUserRow {
  row_telegram_id : Z;
  row_username : option string
}.

(** A row of [admin_logs]; the [logData] object of [logAdminAction]. *)
Record AdminLog := mkAdminLog {
  admin_telegram_id : Z;
  action : string;
  details : string
}.

(** An error object: what is thrown, and what a response carries. *)
Record JsError := mkError {
  code : option string;
  message : string
}.

Inductive Button :=
| callback (text data : string)
| url (text link : string).

(** [InlineKeyboardMarkup] of the Bot API. *)
Record InlineKeyboardMarkup := mkInlineKeyboardMarkup {
  inline_keyboard : list (list Button)
}.

(** A [Markup] object of Telegraf: the markup is the value of its field
    [reply_markup]. *)
Module Markup.

Record t := make {
  reply_markup : InlineKeyboardMarkup
}.

(** [Markup.inlineKeyboard(buttons)]. *)
Definition inlineKeyboard (buttons : list (list Button)) : t :=
  make (mkInlineKeyboardMarkup buttons).

End Markup.

(** The [extra] argument of [reply] and [editMessageText].  What the bot
    puts under [reply_markup] is a [Markup] object, not the markup itself:
    in such a request the keyboard is at
    [reply_markup.reply_markup.inline_keyboard]. *)
Record Extra := mkExtra {
  parse_mode : option string;
  reply_markup : option Markup.t
}.

Definition plain : Extra := mkExtra None None.
Definition Markdown : Extra := mkExtra (Some "Markdown") None.

(** Requests to the chat transport. *)
Inductive Outbound :=
| reply (text : string) (extra : Extra)
| editMessageText (text : string) (extra : Extra)
| answerCbQuery (text : option string) (show_alert : bool)
| sendMessage (chat_id : Z) (text : string)
| getMe.

(** Ghost trace of gateway invocations. *)
Inductive GatewayCall :=
| CallIsUserRegistered (telegramId : Z)
| CallRegisterUser (userData : Registration)
| CallGetRegisteredUserCount
| CallGetRegisteredUsersList
| CallLogAdminAction (logData : AdminLog).

(** One scripted answer of the database service. *)
Inductive DbOutcome :=
| DbOk
| DbError (e : JsError)
| DbThrow (e : JsError).

(** One scripted answer of the chat transport. *)
Inductive TgOutcome :=
| TgOk
| TgFail (e : JsError).

Record World := mkWorld {
  registrations : list Registration;
  admin_logs : list AdminLog;
  db_script : list DbOutcome;
  tg_script : list TgOutcome;
  calls : list GatewayCall;
  outbox : list (Outbound * bool);
  console : list string
}.

(** ** Computations *)

Inductive Completion (A : Type) :=
| Normal (a : A)
| Throw (e : JsError).
Arguments Normal {A} a.
Arguments Throw {A} e.

Definition Js (A : Type) : Type := World -> Completion A * World.

Definition ret {A} (a : A) : Js A := fun w => (Normal a, w).

Definition throw {A} (e : JsError) : Js A := fun w => (Throw e, w).

Definition bind {A B} (m : Js A) (f : A -> Js B) : Js B :=
  fun w =>
    match m w with
    | (Normal a, w') => f a w'
    | (Throw e, w') => (Throw e, w')
    end.

(** [try { m } catch (e) { h e }]. *)
Definition try_catch {A} (m : Js A) (h : JsError -> Js A) : Js A :=
  fun w =>
    match m w with
    | (Normal a, w') => (Normal a, w')
    | (Throw e, w') => h e w'
    end.

(** A promise that is started and never awaited. *)
Definition detached {A} (m : Js A) : Js unit :=
  fun w => (Normal tt, snd (m w)).

Declare Scope js_scope.
Delimit Scope js_scope with js.
Notation "x <- m ;; k" := (bind m (fun x => k))
  (at level 61, m at next level, right associativity) : js_scope.
Notation "m ;; k" := (bind m (fun _ => k))
  (at level 61, right associativity) : js_scope.
#[local] Open Scope js_scope.

Definition console_error (line : string) : Js unit :=
  fun w => (Normal tt,
            mkWorld (registrations w) (admin_logs w) (db_script w) (tg_script w)
                    (calls w) (outbox w) (console w ++ [line])).

Definition record_call (c : GatewayCall) : Js unit :=
  fun w => (Normal tt,
            mkWorld (registrations w) (admin_logs w) (db_script w) (tg_script w)
                    (calls w ++ [c]) (outbox w) (console w)).

(** ** The chat transport *)

(** One request to the Bot API: it is recorded with its outcome, and a failed
    request rejects. *)
Definition transport (op : Outbound) : Js unit :=
  fun w =>
    let sent ok rest :=
      mkWorld (registrations w) (admin_logs w) (db_script w) rest
              (calls w) (outbox w ++ [(op, ok)]) (console w) in
    match tg_script w with
    | [] => (Normal tt, sent true [])
    | TgOk :: rest => (Normal tt, sent true rest)
    | TgFail e :: rest => (Throw e, sent false rest)
    end.

(** ** The database client *)

Record Response (A : Type) := mkResponse {
  data : option A;
  error : option JsError
}.
Arguments mkResponse {A} data error.
Arguments data {A} r.
Arguments error {A} r.

(** The five queries the gateway sends.  A count query answers in [data] what
    the client returns as [count]. *)
Record Supabase := mkSupabase {
  select_single : Z -> Js (Response Z);
  insert_registration : Registration -> Js (Response Registration);
  select_count : Js (Response Z);
  select_list : Js (Response (list UserRow));
  insert_admin_log : AdminLog -> Js (Response AdminLog)
}.

Definition PGRST116 : string := "PGRST116".

(** Next scripted answer of the database. *)
Definition next_db (w : World) : DbOutcome * World :=
  match db_script w with
  | [] => (DbOk, w)
  | o :: rest =>
      (o, mkWorld (registrations w) (admin_logs w) rest (tg_script w)
                  (calls w) (outbox w) (console w))
  end.

(** A request that the database answers: [healthy] computes the answer from
    the tables, a scripted fault replaces it. *)
Definition db_request {A} (healthy : World -> Response A * World) : Js (Response A) :=
  fun w =>
    match next_db w with
    | (DbOk, w') => let (r, w'') := healthy w' in (Normal r, w'')
    | (DbError e, w') => (Normal (mkResponse None (Some e)), w')
    | (DbThrow e, w') => (Throw e, w')
    end.

Definition rows_with (telegramId : Z) (rows : list Registration) : list Registration :=
  filter (fun r => telegram_id r =? telegramId) rows.

Definition user_row (r : Registration) : UserRow :=
  mkUserRow (telegram_id r) (reg_username r).

(** Reference behaviour of the hosted database: [telegram_id] is the primary
    key of [registrations]; [.single()] answers PGRST116 unless exactly one
    row matches; an insert of a present key is refused (23505). *)
Definition postgrest : Supabase := {|
  select_single := fun telegramId =>
    db_request (fun w =>
      match rows_with telegramId (registrations w) with
      | [r] => (mkResponse (Some (telegram_id r)) None, w)
      | _ => (mkResponse None (Some (mkError (Some PGRST116) "no rows")), w)
      end);
  insert_registration := fun row =>
    db_request (fun w =>
      match rows_with (telegram_id row) (registrations w) with
      | [] => (mkResponse (Some row) None,
               mkWorld (registrations w ++ [row]) (admin_logs w) (db_script w)
                       (tg_script w) (calls w) (outbox w) (console w))
      | _ => (mkResponse None (Some (mkError (Some "23505") "duplicate key")), w)
      end);
  select_count :=
    db_request (fun w =>
      (mkResponse (Some (Z.of_nat (List.length (registrations w)))) None, w));
  select_list :=
    db_request (fun w =>
      (mkResponse (Some (map user_row (registrations w))) None, w));
  insert_admin_log := fun entry =>
    db_request (fun w =>
      (mkResponse (Some entry) None,
       mkWorld (registrations w) (admin_logs w ++ [entry]) (db_script w)
               (tg_script w) (calls w) (outbox w) (console w)))
|}.

(** ** Persistence gateway *)

Section Gateway.

Variable supabase : Supabase.

Definition logError (context : string) (e : JsError) : Js unit :=
  console_error ("[Supabase Error - " ++ context ++ "]: " ++ message e).

(** [error.code !== c]. *)
Definition code_differs (e : JsError) (c : string) : bool :=
  match code e with
  | Some c' => negb (String.eqb c' c)
  | None => true
  end.

(** [!!data]. *)
Definition present {A} (d : option A) : bool :=
  match d with Some _ => true | None => false end.

(** True if registered, false if not, [None] (null) on error. *)
Definition isUserRegistered (telegramId : Z) : Js (option bool) :=
  record_call (CallIsUserRegistered telegramId);;
  try_catch
    (r <- select_single supabase telegramId;;
     match error r with
     | Some e =>
         if code_differs e PGRST116
         then logError "isUserRegistered" e;; ret None
         else ret (Some (present (data r)))
     | None => ret (Some (present (data r)))
     end)
    (fun e => logError "isUserRegistered (catch)" e;; ret None).

(** The inserted row on success, [None] (null) on error. *)
Definition registerUser (userData : Registration) : Js (option Registration) :=
  record_call (CallRegisterUser userData);;
  try_catch
    (r <- insert_registration supabase
            (mkRegistration (telegram_id userData) (reg_username userData)
                            (reg_first_name userData));;
     match error r with
     | Some e => logError "registerUser" e;; ret None
     | None => ret (data r)
     end)
    (fun e => logError "registerUser (catch)" e;; ret None).

Definition getRegisteredUserCount : Js (option Z) :=
  record_call CallGetRegisteredUserCount;;
  try_catch
    (r <- select_count supabase;;
     match error r with
     | Some e => logError "getRegisteredUserCount" e;; ret None
     | None => ret (data r)
     end)
    (fun e => logError "getRegisteredUserCount (catch)" e;; ret None).

Definition getRegisteredUsersList : Js (option (list UserRow)) :=
  record_call CallGetRegisteredUsersList;;
  try_catch
    (r <- select_list supabase;;
     match error r with
     | Some e => logError "getRegisteredUsersList" e;; ret None
     | None => ret (data r)
     end)
    (fun e => logError "getRegisteredUsersList (catch)" e;; ret None).

Definition logAdminAction (logData : AdminLog) : Js (option AdminLog) :=
  record_call (CallLogAdminAction logData);;
  try_catch
    (r <- insert_admin_log supabase
            (mkAdminLog (admin_telegram_id logData) (action logData) (details logData));;
     match error r with
     | Some e => logError "logAdminAction" e;; ret None
     | None => ret (data r)
     end)
    (fun e => logError "logAdminAction (catch)" e;; ret None).

End Gateway.

(** ** Inbound updates *)

Inductive Update :=
| message_update (from : option User) (text : option string)
| callback_query_update (from : User) (data : option string)
| other_update.

Definition updateType (ctx : Update) : string :=
  match ctx with
  | message_update _ _ => "message"
  | callback_query_update _ _ => "callback_query"
  | other_update => "other"
  end.

(** [ctx.from]. *)
Definition ctx_from (ctx : Update) : option User :=
  match ctx with
  | message_update from _ => from
  | callback_query_update from _ => Some from
  | other_update => None
  end.

Definition TypeError (what : string) : JsError :=
  mkError None ("Cannot read properties of undefined (reading '" ++ what ++ "')").

(** Evaluation of [ctx.from.<field>]: a TypeError when [ctx.from] is
    undefined. *)
Definition the_from (ctx : Update) : Js User :=
  match ctx_from ctx with
  | Some from => ret from
  | None => throw (TypeError "id")
  end.

(** Evaluation of [ctx.message.text.<method>]. *)
Definition the_text (ctx : Update) : Js string :=
  match ctx with
  | message_update _ (Some text) => ret text
  | message_update _ None => throw (TypeError "substring")
  | _ => throw (TypeError "text")
  end.

(** The two alternatives of the first group of
    [/register_(yes|no):?(\d+)?/]. *)
Inductive Choice := yes | no.

(** [ctx.match]: group 1, and group 2 when it took part in the match. *)
Record RegExpMatch := mkMatch {
  group1 : Choice;
  group2 : option string
}.

(** The pattern matched at the start of [s].  After the alternative
    everything is optional and greedy: a colon when there is one, then the
    digits when there are some. *)
Definition match_register_at (s : string) : option RegExpMatch :=
  let groups (choice : Choice) (rest : string) : RegExpMatch :=
    let rest' := match rest with String ":"%char t => t | _ => rest end in
    mkMatch choice
      (match take_digits rest' with
       | EmptyString => None
       | ds => Some ds
       end) in
  match strip_prefix "register_" s with
  | None => None
  | Some r =>
      match strip_prefix "yes" r with
      | Some rest => Some (groups yes rest)
      | None =>
          match strip_prefix "no" r with
          | Some rest => Some (groups no rest)
          | None => None
          end
      end
  end.

(** [regexp.exec(s)] for a pattern without anchors: the leftmost position
    where it matches. *)
Fixpoint regexp_exec (s : string) : option RegExpMatch :=
  match match_register_at s with
  | Some m => Some m
  | None =>
      match s with
      | String _ t => regexp_exec t
      | EmptyString => None
      end
  end.

(** ** The bot *)

Record Tally := mkTally {
  successfulSends : Z;
  failedSends : Z;
  failedUserIds : list Z
}.

Section Bot.

Variable supabase : Supabase.
Variable ADMIN_ID : option string.
Variable ADMIN_USERNAME : option string.

Definition ctx_reply (text : string) (extra : Extra) : Js unit :=
  transport (reply text extra).

Definition ctx_editMessageText (text : string) (extra : Extra) : Js unit :=
  transport (editMessageText text extra).

Definition ctx_answerCbQuery (text : option string) (show_alert : bool) : Js unit :=
  transport (answerCbQuery text show_alert).

Definition unauthorized_notice : string :=
  "Unauthorized access. This command is for admins only.".

(** Middleware for the admin check. *)
Definition isAdmin (ctx : Update) (next : Js unit) : Js unit :=
  if match ctx_from ctx, parseInt_env ADMIN_ID with
     | Some from, Some admin => id from =? admin
     | _, _ => false
     end
  then next
  else detached (ctx_reply unauthorized_notice plain).

Definition generic_failure : string :=
  "Something went wrong, please try again later.".

Definition already_registered : string :=
  "You’re already registered. I’ll notify you when the app is live.".

Definition registrationPrompt (from : User) : string :=
  let firstName := or_else (first_name from) "there" in
  ("Hello " ++ firstName ++ "! I see you're not yet registered." ++ nl ++ nl)
  ++ ("I'll collect the following information to keep you updated:" ++ nl)
  ++ ("• Your Telegram ID: `" ++ string_of_Z (id from) ++ "`" ++ nl)
  ++ (if truthy (username from)
      then "• Your Username: `@" ++ or_else (username from) "" ++ "`" ++ nl
      else "• Your Username: `Not available` (You can set one in Telegram settings!)" ++ nl)
  ++ ("• Your First Name: `" ++ or_else (first_name from) "Not provided" ++ "`" ++ nl ++ nl)
  ++ "Would you like to register for updates about the Portfolio Showcase app?".

(** The inline keyboard of the offer. *)
Definition buttons (telegramId : Z) : list (list Button) :=
  ([ [ callback "✅ Yes, register me!" ("register_yes:" ++ string_of_Z telegramId);
       callback "❌ No, thanks." "register_no" ] ]
   ++ (if truthy ADMIN_USERNAME
       then [ [ url "❓ Contact Admin" ("https://t.me/" ++ or_else ADMIN_USERNAME "") ] ]
       else []))%list.

(** [/start].  On a lookup error the handler returns the promise of the
    reply without awaiting it inside [try]: the reply is the caller's to
    await, and its rejection does not reach the [catch]. *)
Definition bot_start (ctx : Update) : Js unit :=
  from <- the_from ctx;;
  let telegramId := id from in
  returned <-
    try_catch
      (registered <- isUserRegistered supabase telegramId;;
       match registered with
       | None => ret (Some (reply generic_failure plain))
       | Some true =>
           detached (ctx_reply already_registered plain);; ret None
       | Some false =>
           ctx_reply (registrationPrompt from)
                     (mkExtra (Some "Markdown")
                              (Some (Markup.inlineKeyboard (buttons telegramId))));;
           ret None
       end)
      (fun error =>
         console_error ("[START COMMAND] Unhandled error in /start command: " ++ message error);;
         detached (ctx_reply generic_failure plain);;
         ret None);;
  match returned with
  | Some pending => transport pending
  | None => ret tt
  end.

Definition not_for_you : string := "This registration prompt is not for you.".

Definition registration_confirmed (firstName : string) : string :=
  "🎉 Great! Thanks for registering, " ++ firstName
  ++ "! I’ll notify you when the Portfolio Showcase app is ready.".

Definition registration_failed : string :=
  "Something went wrong during registration, please try again later.".

Definition decline_acknowledged : string :=
  "No problem! You can type /start again anytime if you change your mind.".

(** Callback query handler for the registration buttons. *)
Definition bot_action_register (ctx : Update) (m : RegExpMatch) : Js unit :=
  let action := group1 m in
  let telegramIdFromCallback :=
    match group2 m with
    | Some digits => parseInt digits
    | None => None
    end in
  from <- the_from ctx;;
  let currentTelegramId := id from in
  let firstName := or_else (first_name from) "there" in
  if match telegramIdFromCallback with
     | Some n => negb (n =? 0) && negb (n =? currentTelegramId)
     | None => false
     end
  then ctx_answerCbQuery (Some not_for_you) true
  else
    ctx_answerCbQuery None false;;
    try_catch
      (match action with
       | yes =>
           let username := username from in
           alreadyRegistered <- isUserRegistered supabase currentTelegramId;;
           match alreadyRegistered with
           | None => ctx_editMessageText generic_failure plain
           | Some true => ctx_editMessageText already_registered Markdown
           | Some false =>
               let userData :=
                 mkRegistration currentTelegramId username
                                (or_else (first_name from) "N/A") in
               registrationResult <- registerUser supabase userData;;
               match registrationResult with
               | Some _ =>
                   ctx_editMessageText (registration_confirmed firstName) Markdown
               | None =>
                   ctx_editMessageText registration_failed Markdown
               end
           end
       | no => ctx_editMessageText decline_acknowledged Markdown
       end)
      (fun error =>
         console_error ("[CALLBACK ACTION] Unhandled error in registration action: "
                        ++ message error);;
         detached (ctx_reply generic_failure plain)).

(** [/help]. *)
Definition bot_help (ctx : Update) : Js unit :=
  let adminId := parseInt_env ADMIN_ID in
  userId <- (from <- the_from ctx;; ret (id from));;
  let message :=
    ("Welcome to the Portfolio Showcase Bot!" ++ nl ++ nl)
    ++ ("Use /start to register for updates on the upcoming Portfolio Showcase Mini App." ++ nl)
    ++ (if match adminId with Some a => userId =? a | None => false end
        then (nl ++ "--- Admin Commands ---" ++ nl)
             ++ ("/count - Get the total number of registered users." ++ nl)
             ++ ("/list - Get a list of all registered usernames and IDs." ++ nl)
             ++ ("/notify <message> - Send a broadcast message to all registered users. Example: `/notify The app is live!`" ++ nl)
        else "") in
  detached (ctx_reply message plain).

(** [ctx.from.id], as read when a log record is built. *)
Definition admin_id (ctx : Update) : Js Z :=
  from <- the_from ctx;; ret (id from).

Definition log (ctx : Update) (action details : string) : Js unit :=
  admin <- admin_id ctx;;
  _ <- logAdminAction supabase (mkAdminLog admin action details);;
  ret tt.

(** [/count]. *)
Definition bot_command_count (ctx : Update) : Js unit :=
  try_catch
    (count <- getRegisteredUserCount supabase;;
     match count with
     | None =>
         ctx_reply "Something went wrong while fetching user count, please try again later." plain;;
         log ctx "count_users_failed" "Database error fetching count."
     | Some n =>
         ctx_reply ("Currently, " ++ string_of_Z n ++ " users are registered.") plain;;
         log ctx "count_users" ("Returned count: " ++ string_of_Z n)
     end)
    (fun error =>
       console_error ("[ADMIN COMMAND] Unhandled error in /count command: " ++ message error);;
       detached (ctx_reply generic_failure plain);;
       log ctx "count_users_failed" ("Unhandled error: " ++ message error)).

(** One line of the [/list] reply. *)
Definition render_user (user : UserRow) : string :=
  let usernamePart :=
    if truthy (row_username user)
    then " (@" ++ or_else (row_username user) "" ++ ")"
    else "" in
  "- " ++ string_of_Z (row_telegram_id user) ++ usernamePart.

Definition users_length (users : list UserRow) : Z := Z.of_nat (List.length users).

(** [/list]. *)
Definition bot_command_list (ctx : Update) : Js unit :=
  try_catch
    (users <- getRegisteredUsersList supabase;;
     match users with
     | None =>
         ctx_reply "Something went wrong while fetching the user list, please try again later." plain;;
         log ctx "list_users_failed" "Database error fetching list."
     | Some [] =>
         ctx_reply "No users are currently registered." plain;;
         log ctx "list_users" "No registered users."
     | Some users =>
         let userList := join nl (map render_user users) in
         ctx_reply ("Registered Users:" ++ nl ++ userList) Markdown;;
         log ctx "list_users" ("Returned " ++ string_of_Z (users_length users) ++ " users.")
     end)
    (fun error =>
       console_error ("[ADMIN COMMAND] Unhandled error in /list command: " ++ message error);;
       detached (ctx_reply generic_failure plain);;
       log ctx "list_users_failed" ("Unhandled error: " ++ message error)).

(** The body of [for (const user of users)]: one send per user, each in its
    own [try]; the pause before a send is not modelled. *)
Fixpoint broadcast (messageText : string) (users : list UserRow) (t : Tally) : Js Tally :=
  match users with
  | [] => ret t
  | user :: rest =>
      t' <- try_catch
              (transport (sendMessage (row_telegram_id user) messageText);;
               ret (mkTally (successfulSends t + 1) (failedSends t) (failedUserIds t)))
              (fun sendError =>
                 console_error ("[ADMIN COMMAND] Failed to send message to user "
                                ++ string_of_Z (row_telegram_id user)
                                ++ " (" ++ or_else (row_username user) "N/A" ++ "): "
                                ++ message sendError);;
                 ret (mkTally (successfulSends t) (failedSends t + 1)
                              (failedUserIds t ++ [row_telegram_id user])%list));;
      broadcast messageText rest t'
  end.

Definition usage_hint : string :=
  "Please provide a message to send. Example: `/notify The app is now live!`".

Definition broadcast_summary (t : Tally) : string :=
  "Broadcast complete! Sent to " ++ string_of_Z (successfulSends t)
  ++ " users. Failed for " ++ string_of_Z (failedSends t) ++ " users.".

Definition broadcast_details (messageText : string) (t : Tally) : string :=
  "Message: " ++ dquote ++ messageText ++ dquote
  ++ " | Sent: " ++ string_of_Z (successfulSends t)
  ++ ", Failed: " ++ string_of_Z (failedSends t)
  ++ " (IDs: "
  ++ or_else (Some (join ", " (map string_of_Z (failedUserIds t)))) "N/A"
  ++ ")".

(** [/notify <message>]. *)
Definition bot_command_notify (ctx : Update) : Js unit :=
  text <- the_text ctx;;
  let messageText := trim (substring_from (String.length "/notify ") text) in
  match messageText with
  | EmptyString =>
      ctx_reply usage_hint Markdown;;
      log ctx "notify_failed" "No message text provided."
  | _ =>
      try_catch
        (users <- getRegisteredUsersList supabase;;
         match users with
         | None =>
             ctx_reply "Something went wrong while fetching the user list for notification, please try again later." plain;;
             log ctx "notify_failed" "Database error fetching user list for broadcast."
         | Some [] =>
             ctx_reply "No users are currently registered to notify." plain;;
             log ctx "notify_attempt_no_users" "No registered users to send broadcast to."
         | Some users =>
             t <- broadcast messageText users (mkTally 0 0 []);;
             ctx_reply (broadcast_summary t) plain;;
             log ctx "broadcast_message" (broadcast_details messageText t)
         end)
        (fun error =>
           console_error ("[ADMIN COMMAND] Unhandled error in /notify command: " ++ message error);;
           detached (ctx_reply "Something went wrong during the broadcast, please try again later." plain);;
           log ctx "notify_failed" ("Unhandled error during broadcast: " ++ message error))
  end.

(** Generic error handler: the error is written to the console. *)
Definition bot_catch (err : JsError) (ctx : Update) : Js unit :=
  console_error ("[Telegraf CATCH] Error for " ++ updateType ctx ++ ": " ++ message err).

Definition hint : string :=
  "I'm a registration bot! Please use commands like /start or /help.".

(** Non-command messages.  The line written before the reply reads
    [ctx.from.id]. *)
Definition bot_on_message (ctx : Update) : Js unit :=
  match ctx with
  | message_update _ (Some text) =>
      if truthy (Some text) && negb (startsWith text "/")
      then
        _ <- the_from ctx;;
        detached (ctx_reply hint plain)
      else ret tt
  | _ => ret tt
  end.

(** *** Dispatch

    Telegraf runs the handlers in the order of their registration; the first
    whose trigger accepts the update handles it, and none of the handlers
    above passes the update on.  A command trigger looks at a text message
    whose first entity is a bot command at offset 0; the transport tags as
    such a leading "/" followed by letters, digits, underscores and an
    optional "@name".  The trigger splits the entity at "@": the first piece
    without its "/" is the command, and a second piece that is not empty has
    to be the username of this bot ([ctx.me]), compared without regard to
    case. *)

Definition isCommandChar (c : ascii) : bool :=
  let n := nat_of_ascii c in
  isDigit c || ((65 <=? n)%nat && (n <=? 90)%nat)
  || ((97 <=? n)%nat && (n <=? 122)%nat) || (n =? 95)%nat || (n =? 64)%nat.

Fixpoint take_command (s : string) : string :=
  match s with
  | String c r => if isCommandChar c then String c (take_command r) else EmptyString
  | EmptyString => EmptyString
  end.

Definition bot_command_entity (text : string) : option string :=
  match text with
  | String "/"%char r =>
      match take_command r with
      | EmptyString => None
      | name => Some (String "/"%char name)
      end
  | _ => None
  end.

(** The command that the triggers read from an update, when it carries one
    for this bot: [text.slice(0, len).split('@')], the test of the second
    piece against [ctx.me], and [cmdPart.slice(1)]. *)
Definition command_of (me : string) (ctx : Update) : option string :=
  match ctx with
  | message_update _ (Some text) =>
      match bot_command_entity text with
      | Some value =>
          let cmdPart := before_at value in
          let to :=
            match after_at value with
            | Some r => Some (before_at r)
            | None => None
            end in
          if negb (truthy (Some cmdPart)) then None
          else if truthy to
                  && negb (String.eqb (toLowerCase (or_else to "")) (toLowerCase me))
          then None
          else Some (substring_from 1 cmdPart)
      | None => None
      end
  | _ => None
  end.

Definition is_command (me name : string) (ctx : Update) : bool :=
  match command_of me ctx with
  | Some command => String.eqb command name
  | None => false
  end.

Definition action_match (ctx : Update) : option RegExpMatch :=
  match ctx with
  | callback_query_update _ (Some data) => regexp_exec data
  | _ => None
  end.

Definition middleware (me : string) (ctx : Update) : Js unit :=
  if is_command me "start" ctx then bot_start ctx else
  match action_match ctx with
  | Some m => bot_action_register ctx m
  | None =>
      if is_command me "help" ctx then bot_help ctx else
      if is_command me "count" ctx then isAdmin ctx (bot_command_count ctx) else
      if is_command me "list" ctx then isAdmin ctx (bot_command_list ctx) else
      if is_command me "notify" ctx then isAdmin ctx (bot_command_notify ctx) else
      match ctx with
      | message_update _ _ => bot_on_message ctx
      | _ => ret tt
      end
  end.

(** [bot.botInfo] when an update arrives: the identity of the bot, already
    held by the process ([cached]) or still to be asked for ([uncached]);
    [me] is the username that [getMe] answers for the bot's token. *)
Inductive BotInfo :=
| cached (me : string)
| uncached (me : string).

(** [this.botInfo ??= await this.telegram.getMe()]. *)
Definition botInfo (bot : BotInfo) : Js string :=
  match bot with
  | cached me => ret me
  | uncached me => transport getMe;; ret me
  end.

(** [bot.handleUpdate]: the identity of the bot is awaited first, outside
    the [try]; then what the middleware throws goes to [bot.catch]. *)
Definition handleUpdate (bot : BotInfo) (ctx : Update) : Js unit :=
  me <- botInfo bot;;
  try_catch (middleware me ctx) (fun err => bot_catch err ctx).

End Bot.

(** * Vocabulary of the statements *)

(** A computation preserves a relation between the world before and the world
    after when every run of it does. *)
Definition preserves {A} (R : World -> World -> Prop) (m : Js A) : Prop :=
  forall w, R w (snd (m w)).

(** What the chat transport and the console leave alone: both tables, the
    database script and the trace of gateway calls. *)
Definition same_store (w w' : World) : Prop :=
  registrations w' = registrations w /\ admin_logs w' = admin_logs w
  /\ db_script w' = db_script w /\ calls w' = calls w.

(** The scripted answer that the [k]-th next request will get. *)
Definition db_next (k : nat) (w : World) : DbOutcome := nth k (db_script w) DbOk.
Definition tg_next (k : nat) (w : World) : TgOutcome := nth k (tg_script w) TgOk.

(** A world with the given table, healthy services and empty traces. *)
Definition world_of (rows : list Registration) : World :=
  mkWorld rows [] [] [] [] [] [].

(** The same, with scripted answers. *)
Definition world_with (rows : list Registration) (db : list DbOutcome)
    (tg : list TgOutcome) : World :=
  mkWorld rows [] db tg [] [] [].

Definition timeout : JsError := mkError (Some "57014") "canceling statement due to statement timeout".
Definition network_down : JsError := mkError None "fetch failed".
Definition blocked : JsError := mkError None "403: Forbidden: bot was blocked by the user".

(** A bot whose process holds its identity already. *)
Definition the_bot : BotInfo := cached "PortfolioShowcaseBot".

Definition alice : User := mkUser 42 (Some "alice") (Some "Alice").
Definition bob : User := mkUser 7 None None.
Definition admin : User := mkUser 1 (Some "boss") (Some "Boss").

(** The callback data that the buttons of an offer carry. *)
Definition button_data (b : Button) : list string :=
  match b with
  | callback _ d => [d]
  | url _ _ => []
  end.

Definition affordance_data (ADMIN_USERNAME : option string) (telegramId : Z) : list string :=
  flat_map button_data (List.concat (buttons ADMIN_USERNAME telegramId)).

(** "An affordance created for one user and activated by another gets the
    'not for you' notice", at one input. *)
Definition guard_as_claimed (creator : Z) (actor : User) (data : string) (w : World) : Prop :=
  In data (affordance_data None creator) ->
  id actor <> creator ->
  exists delivered,
    outbox (snd (handleUpdate postgrest None None the_bot
                   (callback_query_update actor (Some data)) w))
    = (outbox w ++ [(answerCbQuery (Some not_for_you) true, delivered)])%list.

(** An update that one of the command triggers or the button trigger
    accepts. *)
Definition recognised (me : string) (ctx : Update) : bool :=
  is_command me "start" ctx || is_command me "help" ctx || is_command me "count" ctx
  || is_command me "list" ctx || is_command me "notify" ctx || present (action_match ctx).

(** "An update that is neither a command nor a button is answered with the
    hint", at one input. *)
Definition hint_as_claimed (ctx : Update) (w : World) : Prop :=
  recognised "PortfolioShowcaseBot" ctx = false ->
  exists delivered,
    outbox (snd (handleUpdate postgrest (Some "1") None the_bot ctx w))
    = (outbox w ++ [(reply hint plain, delivered)])%list.

(** "A fault that leaves the handlers is turned into a message to the user",
    at one input: past the point where the handlers gave up, something more
    is sent. *)
Definition fault_as_claimed (ctx : Update) (w : World) : Prop :=
  forall e w1,
    middleware postgrest (Some "1") None "PortfolioShowcaseBot" ctx w = (Throw e, w1) ->
    exists sent,
      sent <> []
      /\ outbox (snd (handleUpdate postgrest (Some "1") None the_bot ctx w))
         = (outbox w1 ++ sent)%list.

(** Number of audit-log appends in a trace of gateway calls. *)
Definition is_log (c : GatewayCall) : bool :=
  match c with
  | CallLogAdminAction _ => true
  | _ => false
  end.

Definition log_calls (cs : list GatewayCall) : nat := List.length (filter is_log cs).

Definition is_fail (o : TgOutcome) : bool :=
  match o with
  | TgFail _ => true
  | TgOk => false
  end.

(** The answers that the sends of a broadcast get, one per user: the script
    in order, and a healthy transport once it is exhausted. *)
Fixpoint send_outcomes (users : list UserRow) (script : list TgOutcome) : list TgOutcome :=
  match users with
  | [] => []
  | _ :: users' =>
      match script with
      | [] => TgOk :: send_outcomes users' []
      | o :: script' => o :: send_outcomes users' script'
      end
  end.

(** The users whose send failed. *)
Definition failed_ids (users : list UserRow) (outcomes : list TgOutcome) : list Z :=
  map (fun p => row_telegram_id (fst p))
      (filter (fun p => is_fail (snd p)) (combine users outcomes)).

(** The sends of a broadcast as the transport records them. *)
Definition sends (messageText : string) (users : list UserRow)
    (outcomes : list TgOutcome) : list (Outbound * bool) :=
  map (fun p => (sendMessage (row_telegram_id (fst p)) messageText, negb (is_fail (snd p))))
      (combine users outcomes).

(** A string of white space only. *)
Fixpoint blank (s : string) : bool :=
  match s with
  | String c r => isWhiteSpace c && blank r
  | EmptyString => true
  end.

(** [n] initial contacts of one user in a row. *)
Definition after_starts (me : string) (ADMIN_ID ADMIN_USERNAME : option string)
    (from : User) (n : nat) (w : World) : World :=
  Nat.iter n
    (fun w => snd (handleUpdate postgrest ADMIN_ID ADMIN_USERNAME (cached me)
                     (message_update (Some from) (Some "/start")) w))
    w.

(** The press of the accept button that an offer made for [from] carries. *)
Definition accept_press (from : User) : Update :=
  callback_query_update from (Some ("register_yes:" ++ string_of_Z (id from))).

(** "When the re-check does not report the user as registered, the accept
    handler calls the insert with the id, the handle and the display name",
    at one input. *)
Definition accept_as_claimed (from : User) (w : World) : Prop :=
  rows_with (id from) (registrations w) = [] ->
  fst (isUserRegistered postgrest (id from) w) <> Normal (Some true) ->
  In (CallRegisterUser
        (mkRegistration (id from) (username from) (or_else (first_name from) "N/A")))
     (calls (snd (handleUpdate postgrest None None the_bot (accept_press from) w))).

(** * Further code and vocabulary *)

(** ** The webhook endpoint *)

(** [req]: the method, and the parsed body when there is one. *)
Record Request := mkRequest {
  method : string;
  body : option Update
}.

(** What [res.end] is given: a text, or the object handed to
    [JSON.stringify] on failure, kept as the object. *)
Inductive Payload :=
| text_plain (s : string)
| json_failure (error_message : string).

(** [res]. *)
Record ServerResponse := mkServerResponse {
  headersSent : bool;
  statusCode : Z;
  content_type : option string;
  payload : option Payload
}.

(** [res.statusCode = s; res.setHeader('Content-Type', t); res.end(p)]. *)
Definition respond (s : Z) (t : string) (p : Payload) : ServerResponse :=
  mkServerResponse true s (Some t) (Some p).

Definition endpoint_info : string :=
  "This is the Telegram Bot webhook endpoint. Please send POST requests with Telegram updates.".

Section Webhook.

Variable supabase : Supabase.
Variable ADMIN_ID : option string.
Variable ADMIN_USERNAME : option string.

(** [module.exports = async (req, res) => ...], for a process whose Telegraf
    instance is in the state [bot].  The [console.log] lines and the status
    line that follows the 500 response are not kept. *)
Definition module_exports (bot : BotInfo) (req : Request) (res : ServerResponse)
    : Js ServerResponse :=
  try_catch
    (match String.eqb (method req) "POST", body req with
     | true, Some update =>
         handleUpdate supabase ADMIN_ID ADMIN_USERNAME bot update;;
         if negb (headersSent res)
         then ret (respond 200 "text/plain" (text_plain "OK"))
         else ret res
     | _, _ => ret (respond 200 "text/plain" (text_plain endpoint_info))
     end)
    (fun err =>
       console_error ("[WEBHOOK ERROR] Error handling update: " ++ message err);;
       if negb (headersSent res)
       then ret (respond 500 "application/json"
                   (json_failure (or_else (Some (message err)) "Internal Server Error")))
       else ret res).

End Webhook.

(** ** Vocabulary *)

(** What a gateway function makes of the client's completion: the data of
    an answer without error, [null] otherwise. *)
Definition answer_of {A} (c : Completion (Response A)) : option A :=
  match c with
  | Normal r =>
      match error r with
      | Some _ => None
      | None => data r
      end
  | Throw _ => None
  end.

(** The last code unit of a string is not white space (and there is one). *)
Fixpoint ends_clean (s : string) : bool :=
  match s with
  | EmptyString => false
  | String c EmptyString => negb (isWhiteSpace c)
  | String _ r => ends_clean r
  end.

(** The first code unit of a string is not white space (and there is one). *)
Definition starts_clean (s : string) : bool :=
  match s with
  | EmptyString => false
  | String c _ => negb (isWhiteSpace c)
  end.

Definition is_send (o : Outbound * bool) : bool :=
  match fst o with
  | sendMessage _ _ => true
  | _ => false
  end.

(** The text of [/help]: what everybody reads, and what the administrator
    reads in addition. *)
Definition help_text : string :=
  ("Welcome to the Portfolio Showcase Bot!" ++ nl ++ nl)
  ++ ("Use /start to register for updates on the upcoming Portfolio Showcase Mini App." ++ nl).

Definition help_admin_section : string :=
  (nl ++ "--- Admin Commands ---" ++ nl)
  ++ ("/count - Get the total number of registered users." ++ nl)
  ++ ("/list - Get a list of all registered usernames and IDs." ++ nl)
  ++ ("/notify <message> - Send a broadcast message to all registered users. Example: `/notify The app is live!`" ++ nl).

(** The requester is the configured administrator. *)
Definition is_administrator (ADMIN_ID : option string) (ctx : Update) : bool :=
  match ctx_from ctx, parseInt_env ADMIN_ID with
  | Some from, Some a => id from =? a
  | _, _ => false
  end.

(** What the button handler reads from callback data: the choice, and the
    number [parseInt] reads from the digits when there are some. *)
Definition decode_button (data : string) : option (Choice * option Z) :=
  match regexp_exec data with
  | Some m =>
      Some (group1 m,
            match group2 m with
            | Some digits => parseInt digits
            | None => None
            end)
  | None => None
  end.

Definition is_ok (d : DbOutcome) : bool :=
  match d with
  | DbOk => true
  | _ => false
  end.

(** ** Earlier copies of the handlers *)

(** The message handler of the earlier copy of the bot: the text is read
    without a check that there is one. *)
Definition bot_on_message_earlier (ctx : Update) : Js unit :=
  match ctx with
  | message_update _ (Some text) =>
      if negb (startsWith text "/")
      then detached (transport (reply hint plain))
      else ret tt
  | message_update _ None => throw (TypeError "startsWith")
  | _ => throw (TypeError "text")
  end.

Section DiagnosticBot.

Variable supabase : Supabase.

Definition test_successful (firstName : string) : string :=
  "✅ Test Successful! Thanks for registering, " ++ firstName
  ++ "! You will be notified when the app is ready.".

Definition test_failed : string :=
  "❌ Registration Failed. Something went wrong. Please try /start again.".

(** The handler of the single-button diagnostic bot:
    [bot.action('confirm_registration', ...)]. *)
Definition bot_action_confirm_registration (ctx : Update) : Js unit :=
  transport (answerCbQuery (Some "Processing registration...") false);;
  from <- the_from ctx;;
  let telegramId := id from in
  let firstName := or_else (first_name from) "there" in
  let username := username from in
  try_catch
    (alreadyRegistered <- isUserRegistered supabase telegramId;;
     match alreadyRegistered with
     | Some true =>
         transport (editMessageText "You are already registered. Thanks!" plain)
     | _ =>
         let userData :=
           mkRegistration telegramId username (or_else (first_name from) "N/A") in
         registrationResult <- registerUser supabase userData;;
         match registrationResult with
         | Some _ => transport (editMessageText (test_successful firstName) plain)
         | None => transport (editMessageText test_failed plain)
         end
     end)
    (fun error =>
       console_error ("Error in dummy button action handler: " ++ message error);;
       transport (editMessageText
                    "An error occurred during registration. Please try again." plain)).

End DiagnosticBot.
(** * Properties *)

(** ** Decimal numerals *)

Lemma take_digits_string_of_uint (d : uint) :
  take_digits (NilEmpty.string_of_uint d) = NilEmpty.string_of_uint d.
Proof.
  induction d; simpl; try rewrite IHd; reflexivity.
Qed.

Lemma trimStart_string_of_uint (d : uint) :
  trimStart (NilEmpty.string_of_uint d) = NilEmpty.string_of_uint d.
Proof.
  destruct d; reflexivity.
Qed.

Lemma string_of_Z_pos (p : positive) :
  string_of_Z (Z.pos p) = NilEmpty.string_of_uint (Pos.to_uint p).
Proof.
  unfold string_of_Z. simpl.
  pose proof (Unsigned.to_uint_nonnil p) as Hnil.
  destruct (Pos.to_uint p); [contradiction | reflexivity ..].
Qed.

Lemma string_of_uint_nonempty (d : uint) :
  d <> Nil -> NilEmpty.string_of_uint d <> EmptyString.
Proof.
  destruct d; simpl; congruence.
Qed.

Lemma parseInt_string_of_uint (d : uint) :
  d <> Nil -> parseInt (NilEmpty.string_of_uint d) = Some (Z.of_uint d).
Proof.
  intros Hd. unfold parseInt.
  rewrite trimStart_string_of_uint.
  assert (Hsign :
    match NilEmpty.string_of_uint d with
    | String "-"%char r => (true, r)
    | String "+"%char r => (false, r)
    | _ => (false, NilEmpty.string_of_uint d)
    end = (false, NilEmpty.string_of_uint d)) by (destruct d; reflexivity).
  rewrite Hsign. cbv beta iota zeta.
  rewrite take_digits_string_of_uint.
  pose proof (string_of_uint_nonempty d Hd) as Hne.
  destruct (NilEmpty.string_of_uint d) as [|c r] eqn:Hs; [contradiction |].
  rewrite <- Hs, NilEmpty.usu. reflexivity.
Qed.

(** Reading back a positive number written in a template literal. *)
Lemma parseInt_string_of_Z (n : Z) :
  0 < n -> parseInt (string_of_Z n) = Some n.
Proof.
  destruct n as [|p|p]; try lia. intros _.
  rewrite string_of_Z_pos, parseInt_string_of_uint by apply Unsigned.to_uint_nonnil.
  unfold Z.of_uint. rewrite Unsigned.of_to. reflexivity.
Qed.

Lemma take_digits_string_of_Z (n : Z) :
  0 < n ->
  take_digits (string_of_Z n) = string_of_Z n /\ string_of_Z n <> EmptyString.
Proof.
  destruct n as [|p|p]; try lia. intros _.
  rewrite string_of_Z_pos. split.
  - apply take_digits_string_of_uint.
  - apply string_of_uint_nonempty, Unsigned.to_uint_nonnil.
Qed.

(** The accept button made for [n] is matched with its number in group 2. *)
Lemma regexp_exec_register_yes (n : Z) :
  0 < n ->
  regexp_exec ("register_yes:" ++ string_of_Z n)
  = Some (mkMatch yes (Some (string_of_Z n))).
Proof.
  intros Hn. destruct (take_digits_string_of_Z n Hn) as [Htake Hne].
  cbn -[string_of_Z take_digits]. rewrite Htake.
  destruct (string_of_Z n); [contradiction | reflexivity].
Qed.

(** The accept button made for any id, pressed by the user with that id,
    passes the guard: either the number read back is that id, or it is zero,
    or (a negative id) no number was matched at all. *)
Lemma own_press_passes (n : Z) :
  exists g,
    regexp_exec ("register_yes:" ++ string_of_Z n) = Some (mkMatch yes g)
    /\ match match g with Some digits => parseInt digits | None => None end with
       | Some k => negb (k =? 0) && negb (k =? n)
       | None => false
       end = false.
Proof.
  destruct n as [|p|p].
  - exists (Some "0"). split; reflexivity.
  - exists (Some (string_of_Z (Z.pos p))). split.
    + apply regexp_exec_register_yes. lia.
    + rewrite parseInt_string_of_Z by lia.
      rewrite Z.eqb_refl, andb_false_r. reflexivity.
  - exists None. split; reflexivity.
Qed.

(** ** Frames

    Preservation goes through the control structure for any relation that is
    reflexive and transitive. *)


Section Frames.

Variable R : World -> World -> Prop.
Hypothesis R_refl : forall w, R w w.
Hypothesis R_trans : forall w1 w2 w3, R w1 w2 -> R w2 w3 -> R w1 w3.

Lemma preserves_ret {A} (a : A) : preserves R (ret a).
Proof. intros w. apply R_refl. Qed.

Lemma preserves_throw {A} (e : JsError) : preserves R (@throw A e).
Proof. intros w. apply R_refl. Qed.

Lemma preserves_bind {A B} (m : Js A) (f : A -> Js B) :
  preserves R m -> (forall a, preserves R (f a)) -> preserves R (bind m f).
Proof.
  intros Hm Hf w. unfold bind. specialize (Hm w).
  destruct (m w) as [[a|e] w1]; simpl in *.
  - eapply R_trans; [exact Hm | apply Hf].
  - exact Hm.
Qed.

Lemma preserves_try_catch {A} (m : Js A) (h : JsError -> Js A) :
  preserves R m -> (forall e, preserves R (h e)) -> preserves R (try_catch m h).
Proof.
  intros Hm Hh w. unfold try_catch. specialize (Hm w).
  destruct (m w) as [[a|e] w1]; simpl in *.
  - exact Hm.
  - eapply R_trans; [exact Hm | apply Hh].
Qed.

Lemma preserves_detached {A} (m : Js A) :
  preserves R m -> preserves R (detached m).
Proof. intros Hm w. apply Hm. Qed.

End Frames.


Lemma same_store_refl w : same_store w w.
Proof. repeat split. Qed.

Lemma same_store_trans w1 w2 w3 :
  same_store w1 w2 -> same_store w2 w3 -> same_store w1 w3.
Proof.
  unfold same_store. intros (a & b & c & d) (a' & b' & c' & d').
  repeat split; congruence.
Qed.

Lemma transport_same_store op : preserves same_store (transport op).
Proof.
  intros w. unfold transport.
  destruct (tg_script w) as [|[|e] rest]; repeat split.
Qed.

Lemma console_error_same_store line : preserves same_store (console_error line).
Proof. intros w. repeat split. Qed.

(** One step of a frame proof: follow the control structure down to the
    transport and the console, splitting on what the handler tests. *)
Ltac frame_step :=
  lazymatch goal with
  | |- preserves _ (ret _) => apply preserves_ret; exact same_store_refl
  | |- preserves _ (throw _) => apply preserves_throw; exact same_store_refl
  | |- preserves _ (transport _) => apply transport_same_store
  | |- preserves _ (console_error _) => apply console_error_same_store
  | |- preserves _ (detached _) => apply preserves_detached
  | |- preserves _ (bind _ _) =>
      apply preserves_bind; [exact same_store_trans | | intros ?]
  | |- preserves _ (try_catch _ _) =>
      apply preserves_try_catch; [exact same_store_trans | | intros ?]
  | |- preserves _ (match ?x with _ => _ end) => destruct x
  | |- preserves _ (if ?b then _ else _) => destruct b
  end.

Ltac frame := repeat frame_step.

(** ** Membership check *)

(** C3.  [isUserRegistered] is tri-state over every answer of the database
    client: the "no rows" answer (error code PGRST116, no data) gives [false];
    an error answer with any other code, or a client call that throws, gives
    the error sentinel [null]; an answer carrying a row and no error gives
    [true]; the function itself never throws, and the sentinel differs from
    the [false] result. *)
Theorem isUserRegistered_tristate (supabase : Supabase) (telegramId : Z) (w : World) :
  let asked := snd (record_call (CallIsUserRegistered telegramId) w) in
  let answer := fst (isUserRegistered supabase telegramId w) in
  (forall e w',
      select_single supabase telegramId asked = (Normal (mkResponse None (Some e)), w') ->
      code e = Some PGRST116 -> answer = Normal (Some false))
  /\ (forall r e w',
      select_single supabase telegramId asked = (Normal r, w') ->
      error r = Some e -> code e <> Some PGRST116 -> answer = Normal None)
  /\ (forall e w',
      select_single supabase telegramId asked = (Throw e, w') -> answer = Normal None)
  /\ (forall row w',
      select_single supabase telegramId asked = (Normal (mkResponse (Some row) None), w') ->
      answer = Normal (Some true))
  /\ (exists b, answer = Normal b)
  /\ Normal (@None bool) <> Normal (Some false).
Proof.
  cbv zeta. unfold isUserRegistered, bind, try_catch.
  set (asked := snd (record_call (CallIsUserRegistered telegramId) w)).
  change (record_call (CallIsUserRegistered telegramId) w) with (Normal tt, asked).
  cbv iota beta.
  repeat split.
  - intros e w' Hq Hcode. rewrite Hq. cbn.
    unfold code_differs. rewrite Hcode. reflexivity.
  - intros r e w' Hq He Hcode. rewrite Hq. cbn. rewrite He.
    assert (Hd : code_differs e PGRST116 = true).
    { unfold code_differs. destruct (code e) as [c|]; [|reflexivity].
      destruct (String.eqb_spec c PGRST116); [subst; congruence | reflexivity]. }
    rewrite Hd. reflexivity.
  - intros e w' Hq. rewrite Hq. reflexivity.
  - intros row w' Hq. rewrite Hq. reflexivity.
  - destruct (select_single supabase telegramId asked) as [[r|e] w']; cbn.
    + destruct (error r) as [e|]; [destruct (code_differs e PGRST116)|]; cbn; eauto.
    + eauto.
  - discriminate.
Qed.

Lemma isUserRegistered_tristate_witness :
  fst (isUserRegistered postgrest 42 (world_of [])) = Normal (Some false)
  /\ fst (isUserRegistered postgrest 42 (world_with [] [DbError timeout] [])) = Normal None
  /\ fst (isUserRegistered postgrest 42 (world_with [] [DbThrow network_down] [])) = Normal None
  /\ fst (isUserRegistered postgrest 42 (world_of [mkRegistration 42 (Some "alice") "Alice"]))
     = Normal (Some true).
Proof.
  split; [| split; [| split]].
  - eapply (proj1 (isUserRegistered_tristate postgrest 42 (world_of []))); reflexivity.
  - eapply (proj1 (proj2 (isUserRegistered_tristate postgrest 42
                            (world_with [] [DbError timeout] []))));
      [reflexivity | reflexivity | discriminate].
  - eapply (proj1 (proj2 (proj2 (isUserRegistered_tristate postgrest 42
                                   (world_with [] [DbThrow network_down] [])))));
      reflexivity.
  - eapply (proj1 (proj2 (proj2 (proj2 (isUserRegistered_tristate postgrest 42
               (world_of [mkRegistration 42 (Some "alice") "Alice"]))))));
      reflexivity.
Defined.

(** ** The administrator gate *)

(** C10.  The gate fails closed: when [ADMIN_ID] is absent, or is a string
    from which [parseInt] reads no number, [isAdmin] answers every requester
    with the unauthorized notice and does not run the handler it guards: the
    run is the run of the notice alone, whatever the handler is, and it
    leaves the tables and the trace of gateway calls as they were. *)
Theorem isAdmin_fails_closed (ADMIN_ID : option string) (ctx : Update)
    (next : Js unit) (w : World) :
  ADMIN_ID = None \/ (exists s, ADMIN_ID = Some s /\ parseInt s = None) ->
  isAdmin ADMIN_ID ctx next w = detached (ctx_reply unauthorized_notice plain) w
  /\ (exists delivered,
        outbox (snd (isAdmin ADMIN_ID ctx next w))
        = (outbox w ++ [(reply unauthorized_notice plain, delivered)])%list)
  /\ same_store w (snd (isAdmin ADMIN_ID ctx next w)).
Proof.
  intros Hcfg.
  assert (Hnan : parseInt_env ADMIN_ID = None).
  { destruct Hcfg as [-> | (s & -> & Hs)]; [reflexivity | exact Hs]. }
  assert (Hrun : isAdmin ADMIN_ID ctx next w
                 = detached (ctx_reply unauthorized_notice plain) w).
  { unfold isAdmin. rewrite Hnan. destruct (ctx_from ctx); reflexivity. }
  rewrite Hrun. split; [reflexivity | split].
  - unfold detached, ctx_reply, transport.
    destruct (tg_script w) as [|[|e] rest]; cbn; eauto.
  - apply preserves_detached, transport_same_store.
Qed.

Lemma isAdmin_fails_closed_witness :
  isAdmin None (message_update (Some admin) (Some "/count"))
          (bot_command_count postgrest (message_update (Some admin) (Some "/count")))
          (world_of [])
  = detached (ctx_reply unauthorized_notice plain) (world_of [])
  /\ isAdmin (Some "admin") (message_update (Some admin) (Some "/count"))
          (bot_command_count postgrest (message_update (Some admin) (Some "/count")))
          (world_of [])
  = detached (ctx_reply unauthorized_notice plain) (world_of []).
Proof.
  split.
  - apply (isAdmin_fails_closed None). left. reflexivity.
  - apply (isAdmin_fails_closed (Some "admin")). right.
    exists "admin". split; reflexivity.
Defined.

(** ** The list command *)

Ltac run :=
  cbn -[string_of_Z append join render_user trim substring_from broadcast_details
        broadcast_summary registrationPrompt registration_confirmed buttons app
        log_calls rows_with];
  rewrite <- ?app_assoc; cbn [app].

Lemma render_user_with_handle (i : Z) (h : string) :
  h <> EmptyString ->
  render_user (mkUserRow i (Some h)) = "- " ++ string_of_Z i ++ " (@" ++ h ++ ")".
Proof.
  intros Hh. unfold render_user. destruct h; [contradiction | reflexivity].
Qed.

Lemma render_user_without_handle (i : Z) :
  render_user (mkUserRow i None) = "- " ++ string_of_Z i
  /\ render_user (mkUserRow i (Some EmptyString)) = "- " ++ string_of_Z i.
Proof.
  unfold render_user. cbn -[string_of_Z]. 
  split; induction (string_of_Z i); cbn; congruence.
Qed.

(** With a healthy list query and a table that is not empty, the first thing
    [/list] sends is the rendering of the rows. *)
Lemma list_renders_rows ctx from w :
  ctx_from ctx = Some from ->
  db_next 0 w = DbOk ->
  registrations w <> [] ->
  exists delivered rest,
    outbox (snd (bot_command_list postgrest ctx w))
    = (outbox w
       ++ (reply ("Registered Users:" ++ nl
                  ++ join nl (map render_user (map user_row (registrations w))))
                 Markdown, delivered) :: rest)%list
    /\ (tg_next 0 w = TgOk -> delivered = true /\ rest = []).
Proof.
  destruct w as [regs logs dbs tgs cs ob con].
  unfold db_next, tg_next. cbn [db_script tg_script registrations outbox].
  intros Hfrom Hdb Hregs.
  destruct regs as [|r regs]; [congruence|].
  unfold bot_command_list, log, admin_id, the_from. rewrite Hfrom.
  destruct dbs as [|d dbs]; cbn [nth] in Hdb; subst.
  - run. destruct tgs as [|[|e] tgs]; run.
    + eexists _, _. split; [reflexivity|]. auto.
    + eexists _, _. split; [reflexivity|]. auto.
    + destruct tgs as [|[|e'] tgs]; run; eexists _, _; (split; [reflexivity|]); discriminate.
  - run. destruct tgs as [|[|e] tgs]; run.
    + destruct dbs as [|[| |] dbs]; run; eexists _, _; (split; [reflexivity|]); auto.
    + destruct dbs as [|[| |] dbs]; run; eexists _, _; (split; [reflexivity|]); auto.
    + destruct tgs as [|[|e'] tgs]; destruct dbs as [|[| |] dbs]; run;
        eexists _, _; (split; [reflexivity|]); discriminate.
Qed.

Lemma list_empty_table ctx from w :
  ctx_from ctx = Some from ->
  db_next 0 w = DbOk ->
  registrations w = [] ->
  exists delivered rest,
    outbox (snd (bot_command_list postgrest ctx w))
    = (outbox w ++ (reply "No users are currently registered." plain, delivered) :: rest)%list
    /\ (tg_next 0 w = TgOk -> delivered = true /\ rest = []).
Proof.
  destruct w as [regs logs dbs tgs cs ob con].
  unfold db_next, tg_next. cbn [db_script tg_script registrations outbox].
  intros Hfrom Hdb ->.
  unfold bot_command_list, log, admin_id, the_from. rewrite Hfrom.
  destruct dbs as [|d dbs]; cbn [nth] in Hdb; subst.
  - run. destruct tgs as [|[|e] tgs]; run.
    + eexists _, _. split; [reflexivity|]. auto.
    + eexists _, _. split; [reflexivity|]. auto.
    + destruct tgs as [|[|e'] tgs]; run; eexists _, _; (split; [reflexivity|]); discriminate.
  - run. destruct tgs as [|[|e] tgs]; run.
    + destruct dbs as [|[| |] dbs]; run; eexists _, _; (split; [reflexivity|]); auto.
    + destruct dbs as [|[| |] dbs]; run; eexists _, _; (split; [reflexivity|]); auto.
    + destruct tgs as [|[|e'] tgs]; destruct dbs as [|[| |] dbs]; run;
        eexists _, _; (split; [reflexivity|]); discriminate.
Qed.

(** C8.  The [/list] reply.  A row with a handle is rendered
    [- <id> (@<handle>)], a row without one [- <id>]; for every table that is
    not empty the reply is the header [Registered Users:] followed by the
    rendered rows, one per line, sent as Markdown; for the table holding
    42/alice and 7/no handle the administrator receives exactly
    [Registered Users:\n- 42 (@alice)\n- 7]; for the empty table the reply is
    the "no users" message. *)
Theorem list_reply_rendering :
  (forall i h, h <> EmptyString ->
     render_user (mkUserRow i (Some h)) = "- " ++ string_of_Z i ++ " (@" ++ h ++ ")")
  /\ (forall i, render_user (mkUserRow i None) = "- " ++ string_of_Z i)
  /\ (forall ctx from w,
       ctx_from ctx = Some from -> db_next 0 w = DbOk -> registrations w <> [] ->
       exists delivered rest,
         outbox (snd (bot_command_list postgrest ctx w))
         = (outbox w
            ++ (reply ("Registered Users:" ++ nl
                       ++ join nl (map render_user (map user_row (registrations w))))
                      Markdown, delivered) :: rest)%list
         /\ (tg_next 0 w = TgOk -> delivered = true /\ rest = []))
  /\ outbox (snd (handleUpdate postgrest (Some "1") None the_bot
                    (message_update (Some admin) (Some "/list"))
                    (world_of [mkRegistration 42 (Some "alice") "Alice";
                               mkRegistration 7 None "N/A"])))
     = [(reply ("Registered Users:" ++ nl ++ "- 42 (@alice)" ++ nl ++ "- 7") Markdown, true)]
  /\ (forall ctx from w,
       ctx_from ctx = Some from -> db_next 0 w = DbOk -> registrations w = [] ->
       exists delivered rest,
         outbox (snd (bot_command_list postgrest ctx w))
         = (outbox w
            ++ (reply "No users are currently registered." plain, delivered) :: rest)%list
         /\ (tg_next 0 w = TgOk -> delivered = true /\ rest = [])).
Proof.
  split; [exact render_user_with_handle |].
  split; [intros i; apply render_user_without_handle |].
  split; [exact list_renders_rows |].
  split; [vm_compute; reflexivity |].
  exact list_empty_table.
Qed.

Lemma list_reply_rendering_witness :
  exists delivered rest,
    outbox (snd (bot_command_list postgrest (message_update (Some admin) (Some "/list"))
                   (world_of [mkRegistration 7 None "N/A"])))
    = (reply ("Registered Users:" ++ nl
              ++ join nl (map render_user (map user_row [mkRegistration 7 None "N/A"])))
             Markdown, delivered) :: rest
    /\ (TgOk = TgOk -> delivered = true /\ rest = []).
Proof.
  apply (proj1 (proj2 (proj2 list_reply_rendering))
           (message_update (Some admin) (Some "/list")) admin
           (world_of [mkRegistration 7 None "N/A"])).
  - reflexivity.
  - reflexivity.
  - discriminate.
Defined.

(** ** The registration buttons *)

Lemma isUserRegistered_answer (telegramId : Z) (w : World) :
  fst (isUserRegistered postgrest telegramId w)
  = match db_next 0 w with
    | DbOk =>
        Normal (Some (match rows_with telegramId (registrations w) with
                      | [_] => true
                      | _ => false
                      end))
    | DbError e => if code_differs e PGRST116 then Normal None else Normal (Some false)
    | DbThrow _ => Normal None
    end.
Proof.
  destruct w as [regs logs dbs tgs cs ob con]. unfold db_next.
  unfold isUserRegistered, bind, try_catch, record_call, postgrest, select_single,
    db_request, next_db.
  destruct dbs as [|[|e|e] dbs]; cbn -[rows_with].
  - destruct (rows_with telegramId regs) as [|r [|]]; reflexivity.
  - destruct (rows_with telegramId regs) as [|r [|]]; reflexivity.
  - destruct (code_differs e PGRST116); reflexivity.
  - reflexivity.
Qed.

Lemma decline_same_store supabase ctx m :
  group1 m = no -> preserves same_store (bot_action_register supabase ctx m).
Proof.
  destruct m as [c g]. cbn [group1]. intros ->.
  unfold bot_action_register, the_from, ctx_answerCbQuery, ctx_editMessageText, ctx_reply.
  cbn [group1 group2]. frame.
Qed.

(** C7.  Declining writes nothing.  Whatever the user, the world and the
    database client, a button press whose action is [no] leaves the
    registration table, the audit log and the trace of gateway calls as they
    were, so the membership check of every id answers after the decline what
    it answered before; and when the transport delivers, pressing the decline
    button of an offer does two things only: the press is acknowledged and
    the prompt is edited to the acknowledgement text. *)
Theorem decline_never_writes (supabase : Supabase) (ctx : Update) (m : RegExpMatch)
    (w : World) :
  group1 m = no ->
  let w' := snd (bot_action_register supabase ctx m w) in
  registrations w' = registrations w
  /\ admin_logs w' = admin_logs w
  /\ calls w' = calls w
  /\ (forall telegramId,
        fst (isUserRegistered postgrest telegramId w')
        = fst (isUserRegistered postgrest telegramId w))
  /\ regexp_exec "register_no" = Some (mkMatch no None)
  /\ (forall from,
        ctx_from ctx = Some from -> group2 m = None ->
        tg_next 0 w = TgOk -> tg_next 1 w = TgOk ->
        outbox w'
        = (outbox w ++ [(answerCbQuery None false, true);
                        (editMessageText decline_acknowledged Markdown, true)])%list).
Proof.
  intros Hno w'.
  destruct (decline_same_store supabase ctx m Hno w) as (Hregs & Hlogs & Hdb & Hcalls).
  fold w' in Hregs, Hlogs, Hdb, Hcalls.
  split; [exact Hregs | split; [exact Hlogs | split; [exact Hcalls | split; [| split]]]].
  - intros telegramId. rewrite !isUserRegistered_answer.
    unfold db_next. rewrite Hdb, Hregs. reflexivity.
  - reflexivity.
  - intros from Hfrom Hg Hack Hedit. subst w'. clear Hregs Hlogs Hdb Hcalls.
    destruct m as [c g]. cbn [group1 group2] in Hno, Hg. subst c g.
    destruct w as [regs logs dbs tgs cs ob con].
    unfold tg_next in Hack, Hedit. cbn [tg_script] in Hack, Hedit.
    unfold bot_action_register, the_from. rewrite Hfrom.
    destruct tgs as [|a tgs]; [run; reflexivity|].
    cbn [nth] in Hack. subst a.
    destruct tgs as [|b tgs]; [run; reflexivity|].
    cbn [nth] in Hedit. subst b. run. reflexivity.
Qed.

Lemma decline_never_writes_witness :
  outbox (snd (bot_action_register postgrest
                 (callback_query_update bob (Some "register_no")) (mkMatch no None)
                 (world_of [mkRegistration 42 (Some "alice") "Alice"])))
  = [(answerCbQuery None false, true);
     (editMessageText decline_acknowledged Markdown, true)].
Proof.
  apply (proj2 (proj2 (proj2 (proj2 (proj2
           (decline_never_writes postgrest
              (callback_query_update bob (Some "register_no")) (mkMatch no None)
              (world_of [mkRegistration 42 (Some "alice") "Alice"]) eq_refl)))))
           bob);
    reflexivity.
Defined.

(** The decline button of an offer made for user 42, pressed by user 7: the
    claimed notice is not what happens. *)
Lemma decline_button_counterexample :
  ~ guard_as_claimed 42 bob "register_no" (world_of []).
Proof.
  intros Hclaim.
  destruct Hclaim as [delivered Hout].
  - right. left. reflexivity.
  - discriminate.
  - vm_compute in Hout. discriminate.
Qed.

(** With the identity of the bot at hand, [handleUpdate] is the dispatch
    under [bot.catch]. *)
Lemma handleUpdate_cached supabase ADMIN_ID ADMIN_USERNAME me ctx :
  handleUpdate supabase ADMIN_ID ADMIN_USERNAME (cached me) ctx
  = try_catch (middleware supabase ADMIN_ID ADMIN_USERNAME me ctx)
      (fun err => bot_catch err ctx).
Proof. reflexivity. Qed.

(** Without it, [getMe] is asked first, and its fault is the fault of
    [handleUpdate]. *)
Lemma handleUpdate_uncached supabase ADMIN_ID ADMIN_USERNAME me ctx w :
  handleUpdate supabase ADMIN_ID ADMIN_USERNAME (uncached me) ctx w
  = match tg_next 0 w with
    | TgOk =>
        handleUpdate supabase ADMIN_ID ADMIN_USERNAME (cached me) ctx
          (snd (transport getMe w))
    | TgFail e => (Throw e, snd (transport getMe w))
    end.
Proof.
  unfold handleUpdate, botInfo, tg_next. unfold bind at 1 2. unfold bind at 1.
  unfold transport, ret.
  destruct (tg_script w) as [|[|e] rest]; reflexivity.
Qed.

Lemma dispatch_register_yes supabase ADMIN_ID ADMIN_USERNAME me (n : Z) (from : User) :
  0 < n ->
  handleUpdate supabase ADMIN_ID ADMIN_USERNAME (cached me)
    (callback_query_update from (Some ("register_yes:" ++ string_of_Z n)))
  = try_catch
      (bot_action_register supabase
         (callback_query_update from (Some ("register_yes:" ++ string_of_Z n)))
         (mkMatch yes (Some (string_of_Z n))))
      (fun err => bot_catch err
         (callback_query_update from (Some ("register_yes:" ++ string_of_Z n)))).
Proof.
  intros Hn. rewrite handleUpdate_cached. unfold middleware.
  cbn [is_command command_of action_match]. rewrite regexp_exec_register_yes by exact Hn.
  reflexivity.
Qed.

(** C4, as the code has it.  The accept button of an offer carries the id of
    the user the offer was made for; the decline button carries none.  When
    the accept button made for one user is pressed by a user with another id,
    the only thing sent is the "not for you" alert, and the tables, the
    database script and the trace of gateway calls stay as they were, so no
    insert is called.  The decline button is not guarded; pressed by anyone it
    calls no gateway operation either, and when the transport delivers it is
    handled as a decline: the press is acknowledged and the prompt is edited
    to the acknowledgement text. *)
Theorem accept_button_guard (supabase : Supabase) (ADMIN_ID ADMIN_USERNAME : option string)
    (me : string) (creator : Z) (actor : User) (w : World) :
  0 < creator ->
  id actor <> creator ->
  let data := "register_yes:" ++ string_of_Z creator in
  let w' := snd (handleUpdate supabase ADMIN_ID ADMIN_USERNAME (cached me)
                   (callback_query_update actor (Some data)) w) in
  affordance_data ADMIN_USERNAME creator = [data; "register_no"]
  /\ (exists delivered,
        outbox w' = (outbox w ++ [(answerCbQuery (Some not_for_you) true, delivered)])%list)
  /\ same_store w w'
  /\ (forall anyone,
        same_store w
          (snd (handleUpdate supabase ADMIN_ID ADMIN_USERNAME (cached me)
                  (callback_query_update anyone (Some "register_no")) w)))
  /\ (forall anyone,
        tg_next 0 w = TgOk -> tg_next 1 w = TgOk ->
        outbox (snd (handleUpdate supabase ADMIN_ID ADMIN_USERNAME (cached me)
                       (callback_query_update anyone (Some "register_no")) w))
        = (outbox w
           ++ [(answerCbQuery None false, true);
               (editMessageText
                  "No problem! You can type /start again anytime if you change your mind."
                  Markdown, true)])%list).
Proof.
  intros Hpos Hneq data w'.
  split; [unfold affordance_data, buttons; destruct (truthy ADMIN_USERNAME); reflexivity |].
  assert (Hguard : negb (creator =? 0) && negb (creator =? id actor) = true).
  { apply andb_true_intro. split; apply negb_true_iff, Z.eqb_neq; [lia | congruence]. }
  assert (Hrun : handleUpdate supabase ADMIN_ID ADMIN_USERNAME (cached me)
                   (callback_query_update actor (Some data))
                 = try_catch (ctx_answerCbQuery (Some not_for_you) true)
                     (fun err => bot_catch err (callback_query_update actor (Some data)))).
  { subst data. rewrite dispatch_register_yes by exact Hpos.
    unfold bot_action_register. cbn [group1 group2 the_from ctx_from].
    rewrite parseInt_string_of_Z by exact Hpos.
    unfold bind, ret. rewrite Hguard. reflexivity. }
  subst w'. rewrite Hrun.
  split; [| split; [| split]].
  - destruct w as [regs logs dbs tgs cs ob con].
    destruct tgs as [|[|e] tgs]; cbn; eauto.
  - unfold ctx_answerCbQuery, bot_catch.
    assert (H : preserves same_store
                  (try_catch (transport (answerCbQuery (Some not_for_you) true))
                     (fun err => console_error
                        ("[Telegraf CATCH] Error for "
                         ++ updateType (callback_query_update actor (Some data))
                         ++ ": " ++ message err)))) by frame.
    apply H.
  - intros anyone. rewrite handleUpdate_cached. unfold middleware.
    cbn [is_command command_of action_match regexp_exec].
    change (regexp_exec "register_no") with (Some (mkMatch no None)).
    cbv iota beta.
    assert (H : preserves same_store
                  (try_catch
                     (bot_action_register supabase
                        (callback_query_update anyone (Some "register_no"))
                        (mkMatch no None))
                     (fun err => bot_catch err
                        (callback_query_update anyone (Some "register_no"))))).
    { apply preserves_try_catch; [exact same_store_trans | | intros e].
      - apply decline_same_store. reflexivity.
      - unfold bot_catch. frame. }
    apply H.
  - intros anyone Hack Hedit. rewrite handleUpdate_cached. unfold middleware.
    cbn [is_command command_of action_match regexp_exec].
    change (regexp_exec "register_no") with (Some (mkMatch no None)).
    cbv iota beta.
    destruct w as [regs logs dbs tgs cs ob con].
    unfold tg_next in Hack, Hedit. cbn [tg_script] in Hack, Hedit.
    unfold bot_action_register, the_from, bot_catch. cbn [ctx_from group1 group2].
    destruct tgs as [|a tgs]; [run; reflexivity|].
    cbn [nth] in Hack. subst a.
    destruct tgs as [|b tgs]; [run; reflexivity|].
    cbn [nth] in Hedit. subst b. run. reflexivity.
Qed.

Lemma accept_button_guard_witness :
  exists delivered,
    outbox (snd (handleUpdate postgrest None None the_bot
                   (callback_query_update bob (Some ("register_yes:" ++ string_of_Z 42)))
                   (world_of [])))
    = [(answerCbQuery (Some not_for_you) true, delivered)].
Proof.
  apply (proj1 (proj2 (accept_button_guard postgrest None None "PortfolioShowcaseBot" 42 bob
                         (world_of [])
                         ltac:(lia) ltac:(discriminate)))).
Defined.

(** ** Dispatch *)

Lemma no_slash_no_command (text : string) :
  startsWith text "/" = false -> bot_command_entity text = None.
Proof.
  destruct text as [|c r]; [reflexivity|].
  unfold startsWith. cbn [strip_prefix].
  destruct c as [[] [] [] [] [] [] [] []]; cbn; congruence.
Qed.

Lemma no_slash_not_recognised me from (text : string) :
  startsWith text "/" = false -> recognised me (message_update from (Some text)) = false.
Proof.
  intros H. unfold recognised, is_command, command_of.
  rewrite (no_slash_no_command text H). reflexivity.
Qed.

(** What [bot.handleUpdate] does with a fault: the completion is normal and
    one line is added to the console; nothing is sent. *)
Lemma handleUpdate_catches supabase ADMIN_ID ADMIN_USERNAME me ctx w :
  fst (handleUpdate supabase ADMIN_ID ADMIN_USERNAME (cached me) ctx w) = Normal tt
  /\ (forall e w1,
        middleware supabase ADMIN_ID ADMIN_USERNAME me ctx w = (Throw e, w1) ->
        outbox (snd (handleUpdate supabase ADMIN_ID ADMIN_USERNAME (cached me) ctx w)) = outbox w1
        /\ console (snd (handleUpdate supabase ADMIN_ID ADMIN_USERNAME (cached me) ctx w))
           = (console w1
              ++ [("[Telegraf CATCH] Error for " ++ updateType ctx ++ ": " ++ message e)%string])%list).
Proof.
  rewrite handleUpdate_cached. unfold try_catch.
  destruct (middleware supabase ADMIN_ID ADMIN_USERNAME me ctx w) as [[[]|e] w1].
  - split; [reflexivity | discriminate].
  - split; [reflexivity |]. intros e' w1' [= <- <-]. split; reflexivity.
Qed.

Lemma unrecognised_text_gets_hint supabase ADMIN_ID ADMIN_USERNAME me from text w :
  text <> EmptyString ->
  startsWith text "/" = false ->
  exists delivered,
    outbox (snd (handleUpdate supabase ADMIN_ID ADMIN_USERNAME (cached me)
                   (message_update (Some from) (Some text)) w))
    = (outbox w ++ [(reply hint plain, delivered)])%list
    /\ console (snd (handleUpdate supabase ADMIN_ID ADMIN_USERNAME (cached me)
                       (message_update (Some from) (Some text)) w))
       = console w.
Proof.
  intros Hne Hslash.
  rewrite handleUpdate_cached. unfold middleware, is_command, command_of.
  rewrite (no_slash_no_command text Hslash). cbn [action_match].
  unfold bot_on_message, the_from. rewrite Hslash.
  destruct text as [|c r]; [contradiction|]. cbn [truthy negb andb ctx_from].
  destruct w as [regs logs dbs tgs cs ob con].
  destruct tgs as [|[|e] tgs]; cbn; eexists; split; reflexivity.
Qed.

(** A message without sender: the handler stops at [ctx.from.id], before the
    reply; [bot.catch] writes its line. *)
Lemma senderless_text_throws supabase ADMIN_ID ADMIN_USERNAME me text w :
  text <> EmptyString ->
  startsWith text "/" = false ->
  handleUpdate supabase ADMIN_ID ADMIN_USERNAME (cached me)
    (message_update None (Some text)) w
  = (Normal tt,
     snd (console_error
            "[Telegraf CATCH] Error for message: Cannot read properties of undefined (reading 'id')"
            w)).
Proof.
  intros Hne Hslash.
  rewrite handleUpdate_cached. unfold middleware, is_command, command_of.
  rewrite (no_slash_no_command text Hslash). cbn [action_match].
  unfold bot_on_message, the_from. rewrite Hslash.
  destruct text as [|c r]; [contradiction|]. reflexivity.
Qed.

Lemma unrecognised_other_unanswered supabase ADMIN_ID ADMIN_USERNAME me ctx w :
  recognised me ctx = false ->
  match ctx with
  | message_update _ (Some text) => text = EmptyString \/ startsWith text "/" = true
  | _ => True
  end ->
  handleUpdate supabase ADMIN_ID ADMIN_USERNAME (cached me) ctx w = (Normal tt, w).
Proof.
  unfold recognised. intros Hrec Hshape.
  repeat (apply orb_false_elim in Hrec; destruct Hrec as [Hrec ?]).
  rewrite handleUpdate_cached. unfold middleware, try_catch.
  repeat match goal with H : is_command _ _ _ = false |- _ => rewrite H; clear H end.
  destruct (action_match ctx); [discriminate|].
  destruct ctx as [from [text|] | from data |]; try reflexivity.
  unfold bot_on_message.
  destruct Hshape as [-> | ->]; [reflexivity |].
  rewrite andb_false_r. reflexivity.
Qed.

(** An unknown command is not answered, and a fault that leaves the handlers
    (here the acknowledgement of a button press is refused) is not turned
    into a message. *)
Lemma dispatcher_counterexample :
  ~ hint_as_claimed (message_update (Some bob) (Some "/foo")) (world_of [])
  /\ ~ fault_as_claimed (callback_query_update alice (Some "register_yes:42"))
         (world_with [] [] [TgFail blocked]).
Proof.
  split.
  - intros Hclaim. destruct Hclaim as [delivered Hout]; [reflexivity |].
    vm_compute in Hout. discriminate.
  - intros Hclaim.
    destruct (Hclaim blocked
                (mkWorld [] [] [] [] [] [(answerCbQuery None false, false)] []))
      as (sent & Hsent & Hout); [vm_compute; reflexivity |].
    vm_compute in Hout.
    destruct sent; [congruence | discriminate].
Qed.

(** C9, as the code has it.  A text message that has a sender and whose text
    is not empty and does not begin with "/" is answered with the hint; the
    hint is not awaited, so when the transport refuses it nobody gets the
    fault and nothing is written.  The same message without sender is not
    answered: the handler stops at [ctx.from.id] and [bot.catch] writes its
    line.  Any other update that no trigger accepts - an unknown command, a
    command addressed to another bot, a message without text, button data
    that the pattern does not match - is left without an answer.  Once the
    identity of the bot is at hand, [handleUpdate] always completes
    normally: a fault that leaves the handlers is caught there and written
    to the console, and nothing is sent to the user on its account.  On the
    first update of a process [handleUpdate] asks for the identity first;
    when that request is refused its fault leaves [handleUpdate], nothing is
    dispatched and [bot.catch] is not called. *)
Theorem dispatcher_fallback (supabase : Supabase) (ADMIN_ID ADMIN_USERNAME : option string)
    (me : string) (ctx : Update) (w : World) :
  (forall from text,
      ctx = message_update (Some from) (Some text) ->
      text <> EmptyString -> startsWith text "/" = false ->
      recognised me ctx = false
      /\ exists delivered,
           outbox (snd (handleUpdate supabase ADMIN_ID ADMIN_USERNAME (cached me) ctx w))
           = (outbox w
              ++ [(reply "I'm a registration bot! Please use commands like /start or /help."
                         plain, delivered)])%list
           /\ console (snd (handleUpdate supabase ADMIN_ID ADMIN_USERNAME (cached me) ctx w))
              = console w)
  /\ (forall text,
      ctx = message_update None (Some text) ->
      text <> EmptyString -> startsWith text "/" = false ->
      recognised me ctx = false
      /\ handleUpdate supabase ADMIN_ID ADMIN_USERNAME (cached me) ctx w
         = (Normal tt,
            mkWorld (registrations w) (admin_logs w) (db_script w) (tg_script w)
              (calls w) (outbox w)
              (console w
               ++ ["[Telegraf CATCH] Error for message: Cannot read properties of undefined (reading 'id')"])))
  /\ (recognised me ctx = false ->
      match ctx with
      | message_update _ (Some text) => text = EmptyString \/ startsWith text "/" = true
      | _ => True
      end ->
      handleUpdate supabase ADMIN_ID ADMIN_USERNAME (cached me) ctx w = (Normal tt, w))
  /\ fst (handleUpdate supabase ADMIN_ID ADMIN_USERNAME (cached me) ctx w) = Normal tt
  /\ (forall e w1,
        middleware supabase ADMIN_ID ADMIN_USERNAME me ctx w = (Throw e, w1) ->
        outbox (snd (handleUpdate supabase ADMIN_ID ADMIN_USERNAME (cached me) ctx w)) = outbox w1
        /\ console (snd (handleUpdate supabase ADMIN_ID ADMIN_USERNAME (cached me) ctx w))
           = (console w1
              ++ [("[Telegraf CATCH] Error for " ++ updateType ctx ++ ": " ++ message e)%string])%list)
  /\ (tg_next 0 w = TgOk ->
      handleUpdate supabase ADMIN_ID ADMIN_USERNAME (uncached me) ctx w
      = handleUpdate supabase ADMIN_ID ADMIN_USERNAME (cached me) ctx
          (snd (transport getMe w)))
  /\ (forall e,
        tg_next 0 w = TgFail e ->
        handleUpdate supabase ADMIN_ID ADMIN_USERNAME (uncached me) ctx w
        = (Throw e,
           mkWorld (registrations w) (admin_logs w) (db_script w) (tl (tg_script w))
             (calls w) (outbox w ++ [(getMe, false)]) (console w))).
Proof.
  split; [| split; [| split; [| split; [| split; [| split]]]]].
  - intros from text -> Hne Hslash. split.
    + apply no_slash_not_recognised, Hslash.
    + apply unrecognised_text_gets_hint; assumption.
  - intros text -> Hne Hslash. split.
    + apply no_slash_not_recognised, Hslash.
    + apply senderless_text_throws; assumption.
  - apply unrecognised_other_unanswered.
  - exact (proj1 (handleUpdate_catches supabase ADMIN_ID ADMIN_USERNAME me ctx w)).
  - exact (proj2 (handleUpdate_catches supabase ADMIN_ID ADMIN_USERNAME me ctx w)).
  - intros Hok. rewrite handleUpdate_uncached, Hok. reflexivity.
  - intros e He. rewrite handleUpdate_uncached, He.
    unfold tg_next in He. unfold transport.
    destruct (tg_script w) as [|[|e'] rest]; cbn [nth] in He; try discriminate He.
    injection He as ->. reflexivity.
Qed.

Lemma dispatcher_fallback_witness :
  (exists delivered,
     outbox (snd (handleUpdate postgrest (Some "1") None the_bot
                    (message_update (Some bob) (Some "hello")) (world_of [])))
     = [(reply hint plain, delivered)]
     /\ console (snd (handleUpdate postgrest (Some "1") None the_bot
                       (message_update (Some bob) (Some "hello")) (world_of [])))
        = [])
  /\ outbox (snd (handleUpdate postgrest (Some "1") None the_bot
                    (message_update None (Some "hello")) (world_of [])))
     = []
  /\ handleUpdate postgrest (Some "1") None the_bot (message_update (Some bob) (Some "/foo"))
       (world_of [])
     = (Normal tt, world_of [])
  /\ handleUpdate postgrest (Some "1") None the_bot
       (message_update (Some bob) (Some "/help@AnotherBot")) (world_of [])
     = (Normal tt, world_of [])
  /\ outbox (snd (handleUpdate postgrest (Some "1") None the_bot
                    (callback_query_update alice (Some "register_yes:42"))
                    (world_with [] [] [TgFail blocked])))
     = [(answerCbQuery None false, false)]
  /\ fst (handleUpdate postgrest (Some "1") None (uncached "PortfolioShowcaseBot")
            (message_update (Some bob) (Some "hello"))
            (world_with [] [] [TgFail network_down]))
     = Throw network_down.
Proof.
  split; [| split; [| split; [| split; [| split]]]].
  - apply (proj1 (dispatcher_fallback postgrest (Some "1") None "PortfolioShowcaseBot"
                    (message_update (Some bob) (Some "hello")) (world_of []))
             bob "hello" eq_refl); [discriminate | reflexivity].
  - apply (f_equal (fun r : Completion unit * World => outbox (snd r))
             (proj2 (proj1 (proj2 (dispatcher_fallback postgrest (Some "1") None
                                     "PortfolioShowcaseBot"
                                     (message_update None (Some "hello")) (world_of [])))
                       "hello" eq_refl ltac:(discriminate) eq_refl))).
  - apply (proj1 (proj2 (proj2 (dispatcher_fallback postgrest (Some "1") None
                                  "PortfolioShowcaseBot"
                                  (message_update (Some bob) (Some "/foo")) (world_of [])))));
      [reflexivity | right; reflexivity].
  - apply (proj1 (proj2 (proj2 (dispatcher_fallback postgrest (Some "1") None
                                  "PortfolioShowcaseBot"
                                  (message_update (Some bob) (Some "/help@AnotherBot"))
                                  (world_of [])))));
      [reflexivity | right; reflexivity].
  - apply (proj1 (proj2 (proj2 (proj2 (proj2 (dispatcher_fallback postgrest (Some "1") None
                     "PortfolioShowcaseBot"
                     (callback_query_update alice (Some "register_yes:42"))
                     (world_with [] [] [TgFail blocked]))))))
             blocked
             (mkWorld [] [] [] [] [] [(answerCbQuery None false, false)] [])).
    vm_compute. reflexivity.
  - apply (f_equal fst
             (proj2 (proj2 (proj2 (proj2 (proj2 (proj2
                (dispatcher_fallback postgrest (Some "1") None "PortfolioShowcaseBot"
                   (message_update (Some bob) (Some "hello"))
                   (world_with [] [] [TgFail network_down])))))))
                network_down eq_refl)).
Defined.

(** ** Administrator commands *)

Lemma log_calls_app (cs cs' : list GatewayCall) :
  log_calls (cs ++ cs') = (log_calls cs + log_calls cs')%nat.
Proof.
  unfold log_calls. rewrite filter_app, length_app. reflexivity.
Qed.

(** Symbolic run of a handler: compute, and split on the next scripted
    answer whenever the run depends on it. *)
Ltac expose :=
  unfold getRegisteredUserCount, getRegisteredUsersList, logAdminAction,
    isUserRegistered, registerUser, logError, ctx_reply, ctx_editMessageText,
    ctx_answerCbQuery, try_catch, bind, ret, throw, detached, record_call,
    console_error, transport, postgrest, select_single, insert_registration,
    select_count, select_list, insert_admin_log, db_request, next_db.

Ltac split_scripts :=
  expose;
  repeat (run;
          match goal with
          | |- context [match ?l with nil => _ | cons _ _ => _ end] =>
              is_var l; let o := fresh "o" in destruct l as [|o l]; [|destruct o]
          end);
  run.

(** [/count] appends to the audit log once, on every path. *)
Lemma count_logs_once ctx from w :
  ctx_from ctx = Some from ->
  log_calls (calls (snd (bot_command_count postgrest ctx w)))
  = (log_calls (calls w) + 1)%nat.
Proof.
  intros Hfrom. destruct w as [regs logs dbs tgs cs ob con].
  unfold bot_command_count, log, admin_id, the_from. rewrite Hfrom.
  split_scripts; rewrite log_calls_app; reflexivity.
Qed.

(** [/list] appends to the audit log once, on every path. *)
Lemma list_logs_once ctx from w :
  ctx_from ctx = Some from ->
  log_calls (calls (snd (bot_command_list postgrest ctx w)))
  = (log_calls (calls w) + 1)%nat.
Proof.
  intros Hfrom. destruct w as [regs logs dbs tgs cs ob con].
  unfold bot_command_list, log, admin_id, the_from. rewrite Hfrom.
  destruct regs as [|r regs];
    split_scripts; rewrite log_calls_app; reflexivity.
Qed.

(** *** The broadcast loop *)

Lemma failed_ids_cons_ok u users outcomes :
  failed_ids (u :: users) (TgOk :: outcomes) = failed_ids users outcomes.
Proof. reflexivity. Qed.

Lemma failed_ids_cons_fail u users e outcomes :
  failed_ids (u :: users) (TgFail e :: outcomes)
  = row_telegram_id u :: failed_ids users outcomes.
Proof. reflexivity. Qed.

(** The loop never throws: every user gets one send, in order; the tallies
    grow by the numbers of delivered and of refused sends, and the refused
    ids are appended in order.  Only the transport script, the outbox and the
    console change. *)
Lemma broadcast_run (messageText : string) (users : list UserRow) :
  forall t regs logs dbs tgs cs ob con,
  let outcomes := send_outcomes users tgs in
  let failed := failed_ids users outcomes in
  let F := Z.of_nat (List.length failed) in
  exists con',
    broadcast messageText users t (mkWorld regs logs dbs tgs cs ob con)
    = (Normal (mkTally (successfulSends t + (Z.of_nat (List.length users) - F))
                       (failedSends t + F)
                       (failedUserIds t ++ failed)),
       mkWorld regs logs dbs (skipn (List.length users) tgs) cs
               (ob ++ sends messageText users outcomes) con').
Proof.
  cbv zeta.
  induction users as [|u users IH]; intros t regs logs dbs tgs cs ob con.
  - cbn. exists con. destruct t as [s f ids]. cbn.
    rewrite !Z.add_0_r, !app_nil_r. reflexivity.
  - cbn [broadcast]. unfold bind at 1.
    destruct tgs as [|[|e] tgs]; cbn [send_outcomes];
      rewrite ?failed_ids_cons_ok, ?failed_ids_cons_fail;
      cbn -[broadcast Z.of_nat Z.sub Z.add string_of_Z append failed_ids sends
            send_outcomes];
      edestruct IH as [con' ->]; exists con';
      unfold sends; cbn [combine map fst snd is_fail negb List.length skipn
                         successfulSends failedSends failedUserIds];
      rewrite <- ?app_assoc; cbn [app].
    + destruct users; cbn [skipn]; (do 2 f_equal); f_equal; lia.
    + (do 2 f_equal); f_equal; lia.
    + (do 2 f_equal); f_equal; lia.
Qed.



Ltac run_notify :=
  cbn -[string_of_Z append join trim substring_from broadcast_details
        broadcast_summary app log_calls broadcast send_outcomes failed_ids sends
        skipn Z.of_nat Z.sub Z.add List.length nth];
  rewrite <- ?app_assoc; cbn [app].








(** *** Audit records of [/notify] *)

Lemma substring_from_blank (n : nat) (s : string) :
  blank s = true -> blank (substring_from n s) = true.
Proof.
  revert s. induction n as [|n IH]; intros [|c r]; cbn; auto.
  intros H. apply andb_prop in H. apply IH, H.
Qed.

Lemma trimStart_blank (s : string) : blank s = true -> trimStart s = EmptyString.
Proof.
  induction s as [|c r IH]; cbn; [reflexivity|].
  intros H. apply andb_prop in H. destruct H as [Hc Hr].
  rewrite Hc. apply IH, Hr.
Qed.

(** The command alone, or followed by white space only, leaves no message
    text. *)
Lemma notify_blank_text (rest : string) :
  blank rest = true -> trim (substring_from 8 ("/notify" ++ rest)) = EmptyString.
Proof.
  intros H. unfold trim. rewrite trimStart_blank; [reflexivity|].
  cbn [append substring_from]. apply (substring_from_blank 1), H.
Qed.

(** With no message text, [/notify] sends the usage hint and never asks for
    the list; it appends the [notify_failed] record when the hint is
    delivered, and nothing when the hint is refused. *)
Lemma notify_empty_text from text w :
  trim (substring_from 8 text) = EmptyString ->
  let w' := snd (bot_command_notify postgrest (message_update (Some from) (Some text)) w) in
  outbox w' = (outbox w ++ [(reply usage_hint Markdown, negb (is_fail (tg_next 0 w)))])%list
  /\ calls w'
     = (calls w
        ++ (if is_fail (tg_next 0 w) then []
            else [CallLogAdminAction
                    (mkAdminLog (id from) "notify_failed" "No message text provided.")]))%list.
Proof.
  intros Hempty. destruct w as [regs logs dbs tgs cs ob con].
  cbv zeta. split.
  all: unfold bot_command_notify, the_text, log, admin_id, the_from, tg_next;
    cbn [ctx_from tg_script]; unfold bind at 1; unfold ret at 1;
    change (String.length "/notify ") with 8%nat; rewrite Hempty.
  all: destruct tgs as [|[|e] tgs]; destruct dbs as [|[|e'|e'] dbs]; expose; run;
    rewrite ?app_nil_r; reflexivity.
Qed.

(** [/notify] appends to the audit log once on every path but one: with no
    message text and the usage hint refused by the transport, it appends
    nothing. *)
Lemma notify_logs from text w :
  log_calls (calls (snd (bot_command_notify postgrest
                           (message_update (Some from) (Some text)) w)))
  = (log_calls (calls w)
     + match trim (substring_from 8 text) with
       | EmptyString => if is_fail (tg_next 0 w) then 0 else 1
       | _ => 1
       end)%nat.
Proof.
  destruct (trim (substring_from 8 text)) as [|c mt] eqn:Htext.
  - destruct (notify_empty_text from text w Htext) as [_ ->].
    rewrite log_calls_app. destruct (is_fail (tg_next 0 w)); reflexivity.
  - destruct w as [regs logs dbs tgs cs ob con].
    unfold bot_command_notify, the_text, log, admin_id, the_from.
    cbn [ctx_from calls]. unfold bind at 1. unfold ret at 1.
    change (String.length "/notify ") with 8%nat. rewrite Htext.
    destruct regs as [|r regs].
    + split_scripts; rewrite log_calls_app; reflexivity.
    + destruct (broadcast_run (String c mt) (map user_row (r :: regs)) (mkTally 0 0 [])
                  (r :: regs) logs (tl dbs) tgs (cs ++ [CallGetRegisteredUsersList]) ob con)
        as [con' Hrun].
      cbn [map] in Hrun.
      destruct dbs as [|[|e|e] dbs]; cbn [tl] in Hrun; expose; run_notify;
        rewrite ?Hrun; clear Hrun;
        try destruct (skipn (List.length (user_row r :: map user_row regs)) tgs)
          as [|[|e'] tgs'];
        split_scripts; rewrite log_calls_app; reflexivity.
Qed.

(** A requester who is not the administrator is answered with the notice;
    the guarded handler does not run. *)
Lemma non_admin_rejected ADMIN_ID ctx next w :
  (forall from a, ctx_from ctx = Some from -> parseInt_env ADMIN_ID = Some a -> id from <> a) ->
  isAdmin ADMIN_ID ctx next w = detached (ctx_reply unauthorized_notice plain) w.
Proof.
  intros Hnot. unfold isAdmin.
  destruct (ctx_from ctx) as [from|]; [| reflexivity].
  destruct (parseInt_env ADMIN_ID) as [a|]; [| reflexivity].
  specialize (Hnot from a eq_refl eq_refl).
  apply Z.eqb_neq in Hnot. rewrite Hnot. reflexivity.
Qed.

(** C2, at the input where the code departs from it.  The administrator
    (id 1) sends [/notify] with no message text and the transport refuses the
    usage hint: the handler stops at the refused reply, no audit record is
    appended, and the fault ends in the console.  On the sibling path - a
    message text and an empty table, the reply refused in the same way - the
    record is appended: [count_logs_once], [list_logs_once] and [notify_logs]
    show one append on every other path of the three commands.  A requester
    who is not the administrator gets the notice and nothing else happens. *)
Theorem notify_usage_fault_appends_no_log :
  let w := world_with [] [] [TgFail blocked] in
  let w' := snd (handleUpdate postgrest (Some "1") None the_bot
                   (message_update (Some admin) (Some "/notify")) w) in
  let w'' := snd (handleUpdate postgrest (Some "1") None the_bot
                    (message_update (Some admin) (Some "/notify hello")) w) in
  let w99 := snd (handleUpdate postgrest (Some "1") None the_bot
                    (message_update (Some (mkUser 99 None None)) (Some "/count"))
                    (world_of [])) in
  (log_calls (calls w') = 0%nat
   /\ admin_logs w' = []
   /\ outbox w' = [(reply usage_hint Markdown, false)]
   /\ console w' = ["[Telegraf CATCH] Error for message: " ++ message blocked])
  /\ (log_calls (calls w'') = 1%nat
      /\ admin_logs w''
         = [mkAdminLog 1 "notify_failed"
              ("Unhandled error during broadcast: " ++ message blocked)])
  /\ (outbox w99 = [(reply unauthorized_notice plain, true)]
      /\ calls w99 = [] /\ admin_logs w99 = []).
Proof.
  vm_compute. repeat split.
Qed.

Lemma white_space_ends_command (c : ascii) :
  isWhiteSpace c = true -> isCommandChar c = false.
Proof.
  destruct c as [[] [] [] [] [] [] [] []]; vm_compute; intros H;
    (reflexivity || discriminate H).
Qed.

Lemma take_command_stops (p : string) (c : ascii) (r : string) :
  isCommandChar c = false -> take_command (p ++ String c r) = take_command p.
Proof.
  intros Hc. induction p as [|a p IH]; cbn [append take_command].
  - rewrite Hc. reflexivity.
  - destruct (isCommandChar a); [rewrite IH |]; reflexivity.
Qed.

(** The command alone, or followed by white space, is the command for any
    bot. *)
Lemma bare_notify_is_command (me : string) (from : option User) (rest : string) :
  blank rest = true ->
  is_command me "notify" (message_update from (Some ("/notify" ++ rest))) = true.
Proof.
  intros Hrest. destruct rest as [|c r]; [reflexivity |].
  cbn [blank] in Hrest. apply andb_prop in Hrest. destruct Hrest as [Hc _].
  unfold is_command, command_of, bot_command_entity.
  change ("/notify" ++ String c r) with (String "/"%char ("notify" ++ String c r)).
  cbv beta iota.
  rewrite (take_command_stops "notify" c r (white_space_ends_command c Hc)).
  reflexivity.
Qed.

(** C6, at the inputs where the code departs from it.  The message text is
    what is left of the whole text after eight code units, the length of
    [/notify] and a space, whatever the command token was.  When the
    administrator addresses the command to the bot by name and types no
    message, the token is the whole text and the text after it is empty,
    yet the handler takes what follows the eighth code unit, the name of
    the bot, for the message: it asks the store for the list and sends that
    name to every registered user.  And when the transport refuses the
    usage hint of the plain command, no audit record is appended.  Apart
    from these, the claim holds: for the command alone or followed by white
    space, the handler sends the usage hint and nothing else, never asks
    the store for the list, and - the hint being delivered - appends one
    audit record tagged [notify_failed]. *)
Theorem notify_without_text :
  let users := [mkRegistration 42 (Some "alice") "Alice"; mkRegistration 7 None "N/A"] in
  let addressed :=
    snd (handleUpdate postgrest (Some "1") None the_bot
           (message_update (Some admin) (Some "/notify@PortfolioShowcaseBot"))
           (world_of users)) in
  let refused :=
    snd (handleUpdate postgrest (Some "1") None the_bot
           (message_update (Some admin) (Some "/notify"))
           (world_with users [] [TgFail blocked])) in
  (bot_command_entity "/notify@PortfolioShowcaseBot" = Some "/notify@PortfolioShowcaseBot"
   /\ outbox addressed
      = [(sendMessage 42 "PortfolioShowcaseBot", true);
         (sendMessage 7 "PortfolioShowcaseBot", true);
         (reply "Broadcast complete! Sent to 2 users. Failed for 0 users." plain, true)]
   /\ calls addressed
      = [CallGetRegisteredUsersList;
         CallLogAdminAction
           (mkAdminLog 1 "broadcast_message"
              ("Message: " ++ String (ascii_of_nat 34) "PortfolioShowcaseBot"
               ++ String (ascii_of_nat 34) " | Sent: 2, Failed: 0 (IDs: N/A)"))])
  /\ (outbox refused
      = [(reply "Please provide a message to send. Example: `/notify The app is now live!`"
                Markdown, false)]
      /\ calls refused = []
      /\ admin_logs refused = [])
  /\ (forall (me : string) (from : User) (rest : string) (w : World),
        blank rest = true ->
        let ctx := message_update (Some from) (Some ("/notify" ++ rest)) in
        let w' := snd (bot_command_notify postgrest ctx w) in
        let entry := mkAdminLog (id from) "notify_failed" "No message text provided." in
        is_command me "notify" ctx = true
        /\ (exists delivered,
              outbox w'
              = (outbox w
                 ++ [(reply "Please provide a message to send. Example: `/notify The app is now live!`"
                            Markdown, delivered)])%list)
        /\ (exists added,
              calls w' = (calls w ++ added)%list /\ ~ In CallGetRegisteredUsersList added)
        /\ (tg_next 0 w = TgOk ->
            calls w' = (calls w ++ [CallLogAdminAction entry])%list
            /\ (db_next 0 w = DbOk -> admin_logs w' = (admin_logs w ++ [entry])%list))).
Proof.
  cbv zeta. split; [| split].
  - vm_compute. repeat split.
  - vm_compute. repeat split.
  - intros me from rest w Hrest.
    pose proof (notify_blank_text rest Hrest) as Hempty.
    destruct (notify_empty_text from ("/notify" ++ rest) w Hempty) as [Hout Hcalls].
    split; [apply bare_notify_is_command, Hrest | split; [eauto | split]].
    + eexists. split; [exact Hcalls |].
      destruct (is_fail (tg_next 0 w)); cbn; intuition discriminate.
    + intros Hok. rewrite Hok in Hcalls. cbn [is_fail] in Hcalls.
      split; [exact Hcalls |]. intros Hdb.
      destruct w as [regs logs dbs tgs cs ob con].
      unfold tg_next, db_next in Hok, Hdb. cbn [tg_script db_script] in Hok, Hdb.
      unfold bot_command_notify, the_text, log, admin_id, the_from.
      cbn [ctx_from]. unfold bind at 1. unfold ret at 1.
      change (String.length "/notify ") with 8%nat. rewrite Hempty.
      destruct tgs as [|o tgs]; [| cbn [nth] in Hok; subst o];
        (destruct dbs as [|d dbs]; [| cbn [nth] in Hdb; subst d]);
        expose; run; reflexivity.
Qed.

Lemma notify_without_text_witness :
  calls (snd (bot_command_notify postgrest
                (message_update (Some admin) (Some "/notify   "))
                (world_of [mkRegistration 42 (Some "alice") "Alice"])))
  = [CallLogAdminAction (mkAdminLog 1 "notify_failed" "No message text provided.")].
Proof.
  apply (proj1 (proj2 (proj2 (proj2
           (proj2 (proj2 notify_without_text) "PortfolioShowcaseBot" admin "   "
              (world_of [mkRegistration 42 (Some "alice") "Alice"]) eq_refl)))
           eq_refl)).
Defined.

(** ** Registration *)

(** The re-check answers the error sentinel: the claimed insert does not
    take place. *)
Lemma accept_counterexample :
  ~ accept_as_claimed alice (world_with [] [DbError timeout] []).
Proof.
  intros Hclaim.
  assert (Hin : In (CallRegisterUser (mkRegistration 42 (Some "alice") "Alice"))
                   [CallIsUserRegistered 42]).
  { apply Hclaim; [reflexivity | vm_compute; discriminate]. }
  destruct Hin as [Hin | []]. discriminate.
Qed.

Ltac split_rows :=
  repeat match goal with
         | |- context [match rows_with ?i ?r with nil => _ | cons _ _ => _ end] =>
             destruct (rows_with i r) as [|? [|? ?]]
         end.

Lemma start_keeps_registrations ADMIN_ID ADMIN_USERNAME me from w :
  registrations (snd (handleUpdate postgrest ADMIN_ID ADMIN_USERNAME (cached me)
                        (message_update (Some from) (Some "/start")) w))
  = registrations w.
Proof.
  destruct w as [regs logs dbs tgs cs ob con].
  rewrite handleUpdate_cached. unfold middleware.
  change (is_command me "start" (message_update (Some from) (Some "/start"))) with true.
  cbv iota. unfold bot_start, bot_catch, the_from. cbn [ctx_from].
  expose. run.
  destruct dbs as [|[|e|e] dbs]; run; split_rows; run;
    try destruct (code_differs e PGRST116); run;
    repeat (match goal with
            | |- context [match ?l with nil => _ | cons _ _ => _ end] =>
                is_var l; let o := fresh "o" in destruct l as [|o l]; [|destruct o]
            end; run);
    reflexivity.
Qed.

Lemma after_starts_keeps_registrations ADMIN_ID ADMIN_USERNAME me from n w :
  registrations (after_starts me ADMIN_ID ADMIN_USERNAME from n w) = registrations w.
Proof.
  unfold after_starts. induction n as [|n IH]; [reflexivity|].
  rewrite Nat.iter_succ, start_keeps_registrations. exact IH.
Qed.

Lemma rows_with_append (i : Z) (rows : list Registration) (row : Registration) :
  rows_with i rows = [] -> telegram_id row = i -> rows_with i (rows ++ [row]) = [row].
Proof.
  intros Hrows Hrow. unfold rows_with in *. rewrite filter_app, Hrows.
  cbn. rewrite Hrow, Z.eqb_refl. reflexivity.
Qed.

(** The press of one's own accept button, acknowledged by the transport: what
    the handler does on each answer of the re-check. *)
Lemma accept_outcomes ADMIN_ID ADMIN_USERNAME me from w :
  tg_next 0 w = TgOk ->
  let w' := snd (handleUpdate postgrest ADMIN_ID ADMIN_USERNAME (cached me)
                   (accept_press from) w) in
  let userData :=
    mkRegistration (id from) (username from) (or_else (first_name from) "N/A") in
  let edited text extra :=
    exists delivered rest,
      outbox w'
      = (outbox w ++ (answerCbQuery None false, true)
                     :: (editMessageText text extra, delivered) :: rest)%list in
  (fst (isUserRegistered postgrest (id from) w) = Normal None ->
   calls w' = (calls w ++ [CallIsUserRegistered (id from)])%list
   /\ registrations w' = registrations w
   /\ edited generic_failure plain)
  /\ (fst (isUserRegistered postgrest (id from) w) = Normal (Some true) ->
      calls w' = (calls w ++ [CallIsUserRegistered (id from)])%list
      /\ registrations w' = registrations w
      /\ edited already_registered Markdown)
  /\ (fst (isUserRegistered postgrest (id from) w) = Normal (Some false) ->
      calls w'
      = (calls w ++ [CallIsUserRegistered (id from); CallRegisterUser userData])%list
      /\ (db_next 1 w = DbOk ->
          rows_with (id from) (registrations w) = [] ->
          registrations w' = (registrations w ++ [userData])%list
          /\ edited (registration_confirmed (or_else (first_name from) "there")) Markdown)).
Proof.
  intros Hack. cbv zeta. unfold accept_press.
  destruct (own_press_passes (id from)) as (g & Hmatch & Hguard).
  rewrite handleUpdate_cached. unfold middleware. cbn [is_command command_of action_match].
  rewrite Hmatch. clear Hmatch.
  rewrite isUserRegistered_answer.
  destruct w as [regs logs dbs tgs cs ob con].
  unfold tg_next, db_next in *. cbn [tg_script db_script registrations calls outbox] in *.
  assert (Htg : tgs = [] \/ exists tgs', tgs = TgOk :: tgs').
  { destruct tgs as [|o tgs']; [left; reflexivity | right].
    cbn in Hack. subst o. eauto. }
  clear Hack.
  split; [| split]; intros Hans.
  1, 2: split; [| split].
  7: split; [| intros Hdb Hrows; split].
  all: unfold bot_action_register, bot_catch, the_from; cbn [ctx_from group1 group2];
    expose; cbv iota beta; rewrite Hguard; clear Hguard.
  all: destruct Htg as [-> | [tgs' ->]].
  all: destruct dbs as [|[|e|e] dbs]; cbn [nth] in Hans.
  all: try destruct (code_differs e PGRST116) eqn:Hcode; try discriminate Hans.
  all: run; rewrite ?Hcode; run.
  all: try (destruct (rows_with (id from) regs) as [|? [|? ?]] eqn:Hr);
    try discriminate Hans; try discriminate Hrows; clear Hans.
  all: run; rewrite ?Hr; run.
  all: repeat (match goal with
               | |- context [match ?l with nil => _ | cons _ _ => _ end] =>
                   is_var l; let o := fresh "o" in destruct l as [|o l]; [|destruct o]
               end; run; rewrite ?Hr; run).
  all: try (cbn [nth] in Hdb; discriminate Hdb).
  all: try reflexivity.
  all: eexists _, _; reflexivity.
Qed.

(** C1, as the code has it.  A user whose id is not in the table presses the
    accept button of the offer, after any number of initial contacts, and the
    transport acknowledges the press.  The handler first re-verifies
    membership.  The re-check has three answers.  On the error sentinel the
    prompt is edited to the generic failure text and the insert is not
    called.  On "registered" - which the re-check does not answer for an
    absent id - the prompt is edited to the "already registered" text and the
    insert is not called.  On "not registered" the insert is called with the
    id, the handle and the display name, ['N/A'] standing for an absent name;
    when the insert succeeds the table gains that one row, the prompt is
    edited to the confirmation, and every later membership check that the
    database answers reports the user as registered, by exactly one row. *)
Theorem accept_registers_once (ADMIN_ID ADMIN_USERNAME : option string) (me : string) (from : User)
    (n : nat) (w0 : World) :
  let w := after_starts me ADMIN_ID ADMIN_USERNAME from n w0 in
  let w' := snd (handleUpdate postgrest ADMIN_ID ADMIN_USERNAME (cached me)
                   (accept_press from) w) in
  let userData :=
    mkRegistration (id from) (username from) (or_else (first_name from) "N/A") in
  let edited text extra :=
    exists delivered rest,
      outbox w'
      = (outbox w ++ (answerCbQuery None false, true)
                     :: (editMessageText text extra, delivered) :: rest)%list in
  rows_with (id from) (registrations w0) = [] ->
  tg_next 0 w = TgOk ->
  (fst (isUserRegistered postgrest (id from) w) = Normal None ->
   calls w' = (calls w ++ [CallIsUserRegistered (id from)])%list
   /\ registrations w' = registrations w0
   /\ edited generic_failure plain)
  /\ fst (isUserRegistered postgrest (id from) w) <> Normal (Some true)
  /\ (fst (isUserRegistered postgrest (id from) w) = Normal (Some false) ->
      calls w'
      = (calls w ++ [CallIsUserRegistered (id from); CallRegisterUser userData])%list
      /\ (db_next 1 w = DbOk ->
          registrations w' = (registrations w0 ++ [userData])%list
          /\ rows_with (id from) (registrations w') = [userData]
          /\ edited (registration_confirmed (or_else (first_name from) "there")) Markdown
          /\ forall later,
               registrations later = registrations w' -> db_next 0 later = DbOk ->
               fst (isUserRegistered postgrest (id from) later) = Normal (Some true)))
  /\ (forall v,
        tg_next 0 v = TgOk ->
        fst (isUserRegistered postgrest (id from) v) = Normal (Some true) ->
        let v' := snd (handleUpdate postgrest ADMIN_ID ADMIN_USERNAME (cached me)
                         (accept_press from) v) in
        calls v' = (calls v ++ [CallIsUserRegistered (id from)])%list
        /\ registrations v' = registrations v
        /\ exists delivered rest,
             outbox v'
             = (outbox v ++ (answerCbQuery None false, true)
                  :: (editMessageText already_registered Markdown, delivered) :: rest)%list).
Proof.
  intros w w' userData edited Habsent Hack.
  assert (Hregs : registrations w = registrations w0)
    by apply after_starts_keeps_registrations.
  assert (Hrows : rows_with (id from) (registrations w) = [])
    by (rewrite Hregs; exact Habsent).
  destruct (accept_outcomes ADMIN_ID ADMIN_USERNAME me from w Hack)
    as (Hnull & _ & Hfalse).
  fold w' in Hnull, Hfalse.
  split; [| split; [| split]].
  - intros Hans. destruct (Hnull Hans) as (Hc & Hr & He).
    rewrite <- Hregs. auto.
  - rewrite isUserRegistered_answer, Hrows.
    destruct (db_next 0 w) as [|e|e]; [| destruct (code_differs e PGRST116) |];
      discriminate.
  - intros Hans. destruct (Hfalse Hans) as (Hc & Hins).
    split; [exact Hc |]. intros Hdb.
    destruct (Hins Hdb Hrows) as (Hr & He).
    assert (Hone : rows_with (id from) (registrations w') = [userData]).
    { rewrite Hr. apply rows_with_append; [exact Hrows | reflexivity]. }
    split; [rewrite <- Hregs; exact Hr | split; [exact Hone | split; [exact He |]]].
    intros later Hlater Hhealthy.
    rewrite isUserRegistered_answer, Hhealthy, Hlater, Hone. reflexivity.
  - intros v Hv Hans v'.
    destruct (accept_outcomes ADMIN_ID ADMIN_USERNAME me from v Hv)
      as (_ & Htrue & _).
    exact (Htrue Hans).
Qed.

Lemma accept_registers_once_witness :
  registrations
    (snd (handleUpdate postgrest (Some "1") None the_bot (accept_press alice)
            (after_starts "PortfolioShowcaseBot" (Some "1") None alice 3 (world_of []))))
  = [mkRegistration 42 (Some "alice") "Alice"].
Proof.
  apply (proj1 (proj2 (proj1 (proj2 (proj2
           (accept_registers_once (Some "1") None "PortfolioShowcaseBot" alice 3 (world_of [])
              eq_refl eq_refl))) eq_refl) eq_refl)).
Defined.

(** * Further properties *)

(** Symbolic runs on an equation that names the run. *)
Ltac expose_in H :=
  unfold getRegisteredUserCount, getRegisteredUsersList, logAdminAction,
    isUserRegistered, registerUser, logError, ctx_reply, ctx_editMessageText,
    ctx_answerCbQuery, try_catch, bind, ret, throw, detached, record_call,
    console_error, transport, postgrest, select_single, insert_registration,
    select_count, select_list, insert_admin_log, db_request, next_db in H.

Ltac run_in H :=
  cbn -[string_of_Z append join render_user trim substring_from broadcast_details
        broadcast_summary registrationPrompt registration_confirmed buttons app
        log_calls rows_with broadcast] in H;
  rewrite <- ?app_assoc in H; cbn [app] in H.

(** Split on the next scripted answer only where the run depends on it. *)
Ltac split_in H :=
  repeat (run_in H;
          match type of H with
          | context [match ?l with nil => _ | cons _ _ => _ end] =>
              is_var l; let o := fresh "o" in destruct l as [|o l]; [|destruct o]
          end);
  run_in H.

Ltac finish_run H :=
  run_in H; subst;
  cbn [fst snd registrations admin_logs db_script tg_script calls outbox console nth
       is_ok is_fail negb];
  rewrite ?app_nil_r.

(** ** The gateway over any client *)

(** X1.  The four gateway functions beside the membership check never throw,
    whatever the database client does: each asks the client once and returns
    the data of an answer without error, and [null] when the client throws
    or answers with an error. *)
Theorem gateway_never_throws (supabase : Supabase) (w : World) :
  (forall userData,
      fst (registerUser supabase userData w)
      = Normal (answer_of (fst (insert_registration supabase userData
                                  (snd (record_call (CallRegisterUser userData) w))))))
  /\ fst (getRegisteredUserCount supabase w)
     = Normal (answer_of (fst (select_count supabase
                                 (snd (record_call CallGetRegisteredUserCount w)))))
  /\ fst (getRegisteredUsersList supabase w)
     = Normal (answer_of (fst (select_list supabase
                                 (snd (record_call CallGetRegisteredUsersList w)))))
  /\ (forall logData,
      fst (logAdminAction supabase logData w)
      = Normal (answer_of (fst (insert_admin_log supabase logData
                                  (snd (record_call (CallLogAdminAction logData) w)))))).
Proof.
  split; [| split; [| split]].
  - intros [i u f]. unfold registerUser, bind, try_catch. cbn [record_call fst snd
      telegram_id reg_username reg_first_name].
    destruct (insert_registration supabase _ _) as [[r|e] w1]; cbn; [| reflexivity].
    destruct (error r); reflexivity.
  - unfold getRegisteredUserCount, bind, try_catch. cbn [record_call fst snd].
    destruct (select_count supabase _) as [[r|e] w1]; cbn; [| reflexivity].
    destruct (error r); reflexivity.
  - unfold getRegisteredUsersList, bind, try_catch. cbn [record_call fst snd].
    destruct (select_list supabase _) as [[r|e] w1]; cbn; [| reflexivity].
    destruct (error r); reflexivity.
  - intros [a c d]. unfold logAdminAction, bind, try_catch. cbn [record_call fst snd
      admin_telegram_id action details].
    destruct (insert_admin_log supabase _ _) as [[r|e] w1]; cbn; [| reflexivity].
    destruct (error r); reflexivity.
Qed.

(** ** Insert and lookup *)

Lemma rows_with_other (i j : Z) (rows : list Registration) (row : Registration) :
  telegram_id row <> j -> rows_with j (rows ++ [row]) = rows_with j rows.
Proof.
  intros Hne. unfold rows_with. rewrite filter_app. cbn.
  apply Z.eqb_neq in Hne. rewrite Hne. apply app_nil_r.
Qed.

(** X2.  Insert, then look up.  When the id of [userData] is not in the table
    and the database answers, [registerUser] returns the row, the table
    gains that one row at its end and the audit log is untouched; every
    later membership check that the database answers then reports that id as
    registered, and the rows of every other id are what they were.  When the
    id is already in the table the insert is refused: [registerUser] returns
    [null] and the table is unchanged. *)
Theorem register_then_lookup (userData : Registration) (w : World) :
  db_next 0 w = DbOk ->
  let w' := snd (registerUser postgrest userData w) in
  (rows_with (telegram_id userData) (registrations w) = [] ->
   fst (registerUser postgrest userData w) = Normal (Some userData)
   /\ registrations w' = (registrations w ++ [userData])%list
   /\ admin_logs w' = admin_logs w
   /\ (forall later,
         registrations later = registrations w' -> db_next 0 later = DbOk ->
         fst (isUserRegistered postgrest (telegram_id userData) later) = Normal (Some true))
   /\ (forall other, other <> telegram_id userData ->
         rows_with other (registrations w') = rows_with other (registrations w)))
  /\ (rows_with (telegram_id userData) (registrations w) <> [] ->
      fst (registerUser postgrest userData w) = Normal None
      /\ registrations w' = registrations w
      /\ admin_logs w' = admin_logs w).
Proof.
  intros Hdb. destruct userData as [i u f]. destruct w as [regs logs dbs tgs cs ob con].
  unfold db_next in Hdb. cbn [db_script telegram_id registrations admin_logs] in *.
  assert (Hrun :
    registerUser postgrest (mkRegistration i u f) (mkWorld regs logs dbs tgs cs ob con)
    = match rows_with i regs with
      | [] => (Normal (Some (mkRegistration i u f)),
               mkWorld (regs ++ [mkRegistration i u f]) logs (tl dbs) tgs
                       (cs ++ [CallRegisterUser (mkRegistration i u f)]) ob con)
      | _ => (Normal None,
              mkWorld regs logs (tl dbs) tgs
                      (cs ++ [CallRegisterUser (mkRegistration i u f)]) ob
                      (con ++ ["[Supabase Error - registerUser]: duplicate key"]))
      end).
  { destruct dbs as [|d dbs]; cbn [nth] in Hdb; [| subst d];
      expose; run; destruct (rows_with i regs); reflexivity. }
  cbv zeta. rewrite Hrun. clear Hrun. split.
  - intros Habsent. rewrite Habsent. cbn [fst snd registrations admin_logs].
    split; [reflexivity | split; [reflexivity | split; [reflexivity | split]]].
    + intros later Hlater Hok. rewrite isUserRegistered_answer, Hok, Hlater.
      rewrite (rows_with_append i regs (mkRegistration i u f) Habsent eq_refl).
      reflexivity.
    + intros other Hother. apply rows_with_other with (i := i). cbn. congruence.
  - intros Hpresent. destruct (rows_with i regs); [congruence |].
    cbn. repeat split.
Qed.

Lemma register_then_lookup_witness :
  fst (registerUser postgrest (mkRegistration 42 (Some "alice") "Alice") (world_of []))
  = Normal (Some (mkRegistration 42 (Some "alice") "Alice"))
  /\ fst (registerUser postgrest (mkRegistration 42 None "N/A")
            (world_of [mkRegistration 42 (Some "alice") "Alice"]))
     = Normal None.
Proof.
  split.
  - apply (proj1 (register_then_lookup (mkRegistration 42 (Some "alice") "Alice")
                    (world_of []) eq_refl) eq_refl).
  - apply (proj2 (register_then_lookup (mkRegistration 42 None "N/A")
                    (world_of [mkRegistration 42 (Some "alice") "Alice"]) eq_refl)).
    discriminate.
Defined.

(** ** Initial contact *)

Lemma dispatch_start supabase ADMIN_ID ADMIN_USERNAME me from :
  handleUpdate supabase ADMIN_ID ADMIN_USERNAME (cached me)
    (message_update (Some from) (Some "/start"))
  = try_catch
      (bot_start supabase ADMIN_USERNAME (message_update (Some from) (Some "/start")))
      (fun err => bot_catch err (message_update (Some from) (Some "/start"))).
Proof. reflexivity. Qed.

(** X3.  [/start] is read-only.  Whatever the table, and whatever the
    database and the transport answer, an initial contact makes exactly one
    gateway call, the membership check of the sender, and leaves the
    registration table and the audit log as they were; the update is handled
    to a normal completion (the process holding the identity of the bot). *)
Theorem start_is_read_only (ADMIN_ID ADMIN_USERNAME : option string) (me : string) (from : User)
    (w : World) :
  let run := handleUpdate postgrest ADMIN_ID ADMIN_USERNAME (cached me)
               (message_update (Some from) (Some "/start")) w in
  fst run = Normal tt
  /\ calls (snd run) = (calls w ++ [CallIsUserRegistered (id from)])%list
  /\ registrations (snd run) = registrations w
  /\ admin_logs (snd run) = admin_logs w.
Proof.
  cbv zeta. rewrite dispatch_start.
  destruct w as [regs logs dbs tgs cs ob con].
  unfold bot_start, bot_catch, the_from. cbn [ctx_from].
  split; [| split; [| split]].
  all: expose; run.
  all: destruct dbs as [|[|e|e] dbs]; run.
  all: try destruct (rows_with (id from) regs) as [|? [|? ?]]; run.
  all: try destruct (code_differs e PGRST116); run.
  all: repeat (match goal with
               | |- context [match ?l with nil => _ | cons _ _ => _ end] =>
                   is_var l; let o := fresh "o" in destruct l as [|o l]; [|destruct o]
               end; run).
  all: reflexivity.
Qed.

(** X4.  A registered user who sends [/start] again.  With the sender's id in
    the table once and the lookup answered, the only thing sent is the
    "already registered" text - no offer, no buttons. *)
Theorem start_registered_user (ADMIN_ID ADMIN_USERNAME : option string) (me : string) (from : User)
    (row : Registration) (w : World) :
  rows_with (id from) (registrations w) = [row] ->
  db_next 0 w = DbOk ->
  outbox (snd (handleUpdate postgrest ADMIN_ID ADMIN_USERNAME (cached me)
                 (message_update (Some from) (Some "/start")) w))
  = (outbox w ++ [(reply already_registered plain, negb (is_fail (tg_next 0 w)))])%list.
Proof.
  intros Hrow Hdb. rewrite dispatch_start.
  destruct w as [regs logs dbs tgs cs ob con].
  unfold db_next, tg_next in *. cbn [registrations db_script tg_script outbox] in *.
  unfold bot_start, bot_catch, the_from. cbn [ctx_from]. expose.
  destruct dbs as [|d dbs]; cbn [nth] in Hdb; [| subst d]; run; rewrite Hrow; run;
    destruct tgs as [|[|e] tgs]; reflexivity.
Qed.

Lemma start_registered_user_witness :
  outbox (snd (handleUpdate postgrest (Some "1") None the_bot
                 (message_update (Some alice) (Some "/start"))
                 (world_of [mkRegistration 42 (Some "alice") "Alice"])))
  = [(reply already_registered plain, true)].
Proof.
  apply (start_registered_user (Some "1") None "PortfolioShowcaseBot" alice
           (mkRegistration 42 (Some "alice") "Alice")
           (world_of [mkRegistration 42 (Some "alice") "Alice"]) eq_refl eq_refl).
Defined.

(** X5.  A user who is not registered and sends [/start].  With the lookup
    answered, the first thing sent is the offer: the prompt built for the
    sender, as Markdown, and under [reply_markup] the [Markup] object that
    [Markup.inlineKeyboard] makes of the buttons built for the sender's id -
    so the keyboard of the request is at
    [reply_markup.reply_markup.inline_keyboard], one level below the
    request's own [reply_markup].  When the transport delivers the offer
    nothing else is sent; when it refuses it, the handler's own catch writes
    to the console and sends the generic failure text - the fault does not
    leave the handler. *)
Theorem start_offer (ADMIN_ID ADMIN_USERNAME : option string) (me : string) (from : User)
    (w : World) :
  rows_with (id from) (registrations w) = [] ->
  db_next 0 w = DbOk ->
  let w' := snd (handleUpdate postgrest ADMIN_ID ADMIN_USERNAME (cached me)
                   (message_update (Some from) (Some "/start")) w) in
  let offer :=
    reply (registrationPrompt from)
      {| parse_mode := Some "Markdown";
         reply_markup :=
           Some {| Markup.reply_markup :=
                     {| inline_keyboard := buttons ADMIN_USERNAME (id from) |} |} |} in
  (tg_next 0 w = TgOk ->
   outbox w' = (outbox w ++ [(offer, true)])%list /\ console w' = console w)
  /\ (forall e, tg_next 0 w = TgFail e ->
      outbox w'
      = (outbox w ++ [(offer, false);
                      (reply generic_failure plain, negb (is_fail (tg_next 1 w)))])%list
      /\ console w'
         = (console w
            ++ [("[START COMMAND] Unhandled error in /start command: " ++ message e)%string])%list).
Proof.
  intros Habsent Hdb. cbv zeta. rewrite dispatch_start.
  destruct w as [regs logs dbs tgs cs ob con].
  unfold db_next, tg_next in *. cbn [registrations db_script tg_script outbox console] in *.
  split; [intros Htg; split | intros e Htg; split].
  all: unfold bot_start, bot_catch, the_from; cbn [ctx_from]; expose.
  all: destruct dbs as [|d dbs]; cbn [nth] in Hdb; [| subst d]; run; rewrite Habsent; run.
  all: destruct tgs as [|o tgs]; cbn [nth] in Htg; try discriminate Htg;
    try subst o; run; try reflexivity.
  all: destruct tgs as [|[|e'] tgs]; reflexivity.
Qed.

Lemma start_offer_witness :
  outbox (snd (handleUpdate postgrest (Some "1") (Some "boss") the_bot
                 (message_update (Some alice) (Some "/start")) (world_of [])))
  = [(reply (registrationPrompt alice)
        {| parse_mode := Some "Markdown";
           reply_markup :=
             Some {| Markup.reply_markup :=
                       {| inline_keyboard := buttons (Some "boss") 42 |} |} |}, true)].
Proof.
  apply (proj1 (proj1 (start_offer (Some "1") (Some "boss") "PortfolioShowcaseBot" alice
                         (world_of [])
                         eq_refl eq_refl) eq_refl)).
Defined.

(** X6.  The callback data of an offer, read back by the button handler.
    Whatever [ADMIN_USERNAME] is, the keyboard carries two callback data,
    the accept one and the decline one.  For a positive id the handler reads
    from the accept data the choice [yes] and that same id, and from the
    decline data the choice [no] and no id.  An id that is not positive does
    not come back: zero is read as zero, which the guard treats as absent,
    and for a negative id no number is read at all. *)
Theorem offer_buttons_decode (ADMIN_USERNAME : option string) (telegramId : Z) :
  (0 < telegramId ->
   map decode_button (affordance_data ADMIN_USERNAME telegramId)
   = [Some (yes, Some telegramId); Some (no, None)])
  /\ (telegramId = 0 ->
      map decode_button (affordance_data ADMIN_USERNAME telegramId)
      = [Some (yes, Some 0); Some (no, None)])
  /\ (telegramId < 0 ->
      map decode_button (affordance_data ADMIN_USERNAME telegramId)
      = [Some (yes, None); Some (no, None)]).
Proof.
  assert (Hdata : affordance_data ADMIN_USERNAME telegramId
                  = ["register_yes:" ++ string_of_Z telegramId; "register_no"]).
  { unfold affordance_data, buttons. destruct (truthy ADMIN_USERNAME); reflexivity. }
  rewrite Hdata. cbn [map]. unfold decode_button at 2 4 6.
  change (regexp_exec "register_no") with (Some (mkMatch no None)).
  cbn [group1 group2]. unfold decode_button.
  split; [| split].
  - intros Hpos. rewrite regexp_exec_register_yes by exact Hpos.
    cbn [group1 group2]. rewrite parseInt_string_of_Z by exact Hpos. reflexivity.
  - intros ->. reflexivity.
  - intros Hneg. destruct telegramId as [|p|p]; try lia. reflexivity.
Qed.

Lemma offer_buttons_decode_witness :
  map decode_button (affordance_data (Some "boss") 42)
  = [Some (yes, Some 42); Some (no, None)]
  /\ map decode_button (affordance_data None (-5))
     = [Some (yes, None); Some (no, None)].
Proof.
  split.
  - apply (proj1 (offer_buttons_decode (Some "boss") 42)). reflexivity.
  - apply (proj2 (proj2 (offer_buttons_decode None (-5)))). reflexivity.
Defined.

(** X7.  [/start] when the lookup fails (the client throws, or answers an
    error other than "no rows").  Only the generic failure text is sent: no
    offer is made.  The reply is returned without being awaited inside the
    handler's [try], so when the transport refuses it the handler's own catch
    does not see the fault: the catch's line is not written to the console,
    and the fault goes to [bot.catch], whose line is the last one written. *)
Theorem start_lookup_failure (ADMIN_ID ADMIN_USERNAME : option string) (me : string) (from : User)
    (thrown : bool) (e : JsError) (w : World) :
  db_next 0 w = (if thrown then DbThrow e else DbError e) ->
  (thrown = false -> code_differs e PGRST116 = true) ->
  let w' := snd (handleUpdate postgrest ADMIN_ID ADMIN_USERNAME (cached me)
                   (message_update (Some from) (Some "/start")) w) in
  outbox w'
  = (outbox w ++ [(reply generic_failure plain, negb (is_fail (tg_next 0 w)))])%list
  /\ exists lines,
       console w' = (console w ++ lines)%list
       /\ (forall caught,
             ~ In ("[START COMMAND] Unhandled error in /start command: "
                   ++ message caught)%string lines)
       /\ (forall refused,
             tg_next 0 w = TgFail refused ->
             last lines EmptyString
             = ("[Telegraf CATCH] Error for message: " ++ message refused)%string).
Proof.
  intros Hdb Hcode. cbv zeta.
  remember (handleUpdate postgrest ADMIN_ID ADMIN_USERNAME (cached me)
              (message_update (Some from) (Some "/start")) w) as r eqn:Hr.
  rewrite dispatch_start in Hr.
  destruct w as [regs logs dbs tgs cs ob con].
  unfold db_next, tg_next in *. cbn [registrations db_script tg_script outbox console] in *.
  destruct dbs as [|d dbs]; [destruct thrown; discriminate Hdb |].
  cbn [nth] in Hdb. subst d.
  unfold bot_start, bot_catch, the_from in Hr. cbn [ctx_from] in Hr. expose_in Hr.
  destruct thrown; run_in Hr; [| rewrite (Hcode eq_refl) in Hr; run_in Hr].
  all: destruct tgs as [|[|refused0] tgs]; finish_run Hr.
  all: split; [reflexivity |]; eexists; split; [reflexivity |]; split.
  all: try (intros caught Hin; cbn [In] in Hin;
            repeat (destruct Hin as [Hin | Hin]; [cbn in Hin; discriminate Hin |]);
            exact Hin).
  all: intros refused Href; cbn [nth] in Href;
    first [discriminate Href | injection Href as <-; reflexivity].
Qed.

Lemma start_lookup_failure_witness :
  outbox (snd (handleUpdate postgrest (Some "1") None the_bot
                 (message_update (Some alice) (Some "/start"))
                 (world_with [] [DbThrow network_down] [])))
  = [(reply generic_failure plain, true)].
Proof.
  apply (proj1 (start_lookup_failure (Some "1") None "PortfolioShowcaseBot" alice true network_down
                  (world_with [] [DbThrow network_down] []) eq_refl
                  ltac:(discriminate))).
Defined.

(** ** The administrator commands through the dispatcher *)

Lemma is_command_inv (me name : string) (ctx : Update) :
  is_command me name ctx = true ->
  exists from text,
    ctx = message_update from (Some text)
    /\ command_of me (message_update from (Some text)) = Some name.
Proof.
  unfold is_command. intros H.
  destruct (command_of me ctx) as [command|] eqn:Hcommand; [| discriminate].
  apply String.eqb_eq in H. subst command.
  destruct ctx as [from [text|] | from data |]; try discriminate Hcommand.
  exists from, text. split; [reflexivity | exact Hcommand].
Qed.

(** X8.  The gate in front of [/count], [/list] and [/notify].  A message
    that carries one of these commands reaches the command's handler exactly
    when its sender is the configured administrator; from anybody else - and
    from a message without sender - the handler does not run: the
    unauthorized notice is the one thing sent, and the tables, the database
    script and the trace of gateway calls stay as they were. *)
Theorem admin_commands_gate (ADMIN_ID ADMIN_USERNAME : option string) (me : string) (ctx : Update) :
  let handled handler :=
    is_administrator ADMIN_ID ctx = true ->
    handleUpdate postgrest ADMIN_ID ADMIN_USERNAME (cached me) ctx
    = try_catch handler (fun err => bot_catch err ctx) in
  let refused :=
    is_administrator ADMIN_ID ctx = false ->
    forall w,
      handleUpdate postgrest ADMIN_ID ADMIN_USERNAME (cached me) ctx w
      = (Normal tt, snd (transport (reply unauthorized_notice plain) w))
      /\ same_store w (snd (handleUpdate postgrest ADMIN_ID ADMIN_USERNAME (cached me) ctx w)) in
  (is_command me "count" ctx = true ->
   handled (bot_command_count postgrest ctx) /\ refused)
  /\ (is_command me "list" ctx = true ->
      handled (bot_command_list postgrest ctx) /\ refused)
  /\ (is_command me "notify" ctx = true ->
      handled (bot_command_notify postgrest ctx) /\ refused).
Proof.
  cbv zeta.
  split; [| split]; intros Hcmd.
  all: destruct (is_command_inv _ _ ctx Hcmd) as (from & text & -> & Hcommand).
  all: rewrite handleUpdate_cached; unfold middleware, is_command; rewrite Hcommand.
  all: cbn [action_match String.eqb Ascii.eqb Bool.eqb append].
  all: unfold isAdmin; fold (is_administrator ADMIN_ID (message_update from (Some text))).
  all: split; intros Hadmin; rewrite Hadmin; [reflexivity |].
  all: intros w; split;
    [reflexivity
    | apply (preserves_try_catch same_store same_store_trans);
      [apply preserves_detached, transport_same_store
      | intros e; apply console_error_same_store]].
Qed.

Lemma admin_commands_gate_witness :
  handleUpdate postgrest (Some "1") None the_bot (message_update (Some bob) (Some "/list"))
    (world_of [mkRegistration 42 (Some "alice") "Alice"])
  = (Normal tt,
     snd (transport (reply unauthorized_notice plain)
            (world_of [mkRegistration 42 (Some "alice") "Alice"])))
  /\ handleUpdate postgrest (Some "1") None the_bot (message_update (Some admin) (Some "/count"))
     = try_catch (bot_command_count postgrest (message_update (Some admin) (Some "/count")))
         (fun err => bot_catch err (message_update (Some admin) (Some "/count"))).
Proof.
  split.
  - apply (proj2 (proj1 (proj2 (admin_commands_gate (Some "1") None "PortfolioShowcaseBot"
                                  (message_update (Some bob) (Some "/list"))))
                    eq_refl) eq_refl
             (world_of [mkRegistration 42 (Some "alice") "Alice"])).
  - apply (proj1 (proj1 (admin_commands_gate (Some "1") None "PortfolioShowcaseBot"
                           (message_update (Some admin) (Some "/count")))
                    eq_refl) eq_refl).
Defined.

(** X9.  [/help] discloses the administrator commands to the administrator
    only.  The reply is the general text, followed by the section on
    [/count], [/list] and [/notify] exactly when the sender's id is the
    number read from [ADMIN_ID]; with [ADMIN_ID] missing or unreadable nobody
    gets the section.  The handler makes no gateway call. *)
Theorem help_discloses_to_admin_only (ADMIN_ID ADMIN_USERNAME : option string) (me : string)
    (ctx : Update) (from : User) (w : World) :
  is_command me "help" ctx = true ->
  ctx_from ctx = Some from ->
  let w' := snd (handleUpdate postgrest ADMIN_ID ADMIN_USERNAME (cached me) ctx w) in
  (exists delivered,
     outbox w'
     = (outbox w
        ++ [(reply (help_text ++ (if is_administrator ADMIN_ID ctx
                                  then help_admin_section else ""))
                   plain, delivered)])%list)
  /\ same_store w w'
  /\ (parseInt_env ADMIN_ID = None -> is_administrator ADMIN_ID ctx = false).
Proof.
  intros Hcmd Hfrom. cbv zeta.
  destruct (is_command_inv _ _ ctx Hcmd) as (f & text & -> & Hcommand).
  cbn [ctx_from] in Hfrom. subst f.
  rewrite handleUpdate_cached. unfold middleware, is_command. rewrite Hcommand.
  cbn [action_match String.eqb Ascii.eqb Bool.eqb append].
  unfold is_administrator. cbn [ctx_from].
  split; [| split].
  - unfold bot_help, the_from. cbn [ctx_from]. expose.
    destruct w as [regs logs dbs tgs cs ob con].
    destruct (parseInt_env ADMIN_ID) as [a|]; [destruct (id from =? a) |];
      destruct tgs as [|[|e] tgs]; run; eexists; reflexivity.
  - apply (preserves_try_catch same_store same_store_trans);
      [| intros e; apply console_error_same_store].
    unfold bot_help, the_from, ctx_reply. cbn [ctx_from]. frame.
  - intros ->. reflexivity.
Qed.

Lemma help_discloses_to_admin_only_witness :
  exists delivered,
    outbox (snd (handleUpdate postgrest (Some "1") None the_bot
                   (message_update (Some bob) (Some "/help")) (world_of [])))
    = [(reply (help_text ++ "") plain, delivered)].
Proof.
  apply (proj1 (help_discloses_to_admin_only (Some "1") None "PortfolioShowcaseBot"
                  (message_update (Some bob) (Some "/help")) bob (world_of [])
                  eq_refl eq_refl)).
Defined.

(** X10.  [/count] reports the size of the table.  With the count query
    answered and the reply delivered, the administrator reads the number of
    rows of the table, and one audit record tagged [count_users] with that
    number is handed to the gateway; the table is not changed.  Whether the
    audit insert itself succeeds decides only whether the record reaches the
    audit log: what the administrator reads is the same.  With the count
    query failed, the failure text is sent and the record is tagged
    [count_users_failed]. *)
Theorem count_reports_rows (ctx : Update) (from : User) (w : World) :
  ctx_from ctx = Some from ->
  tg_next 0 w = TgOk ->
  let w' := snd (bot_command_count postgrest ctx w) in
  let N := string_of_Z (Z.of_nat (List.length (registrations w))) in
  let counted := mkAdminLog (id from) "count_users" ("Returned count: " ++ N) in
  let failed :=
    mkAdminLog (id from) "count_users_failed" "Database error fetching count." in
  registrations w' = registrations w
  /\ (db_next 0 w = DbOk ->
      outbox w'
      = (outbox w ++ [(reply ("Currently, " ++ N ++ " users are registered.") plain, true)])%list
      /\ calls w'
         = (calls w ++ [CallGetRegisteredUserCount; CallLogAdminAction counted])%list
      /\ admin_logs w'
         = (admin_logs w ++ (if is_ok (db_next 1 w) then [counted] else []))%list)
  /\ (db_next 0 w <> DbOk ->
      outbox w'
      = (outbox w
         ++ [(reply "Something went wrong while fetching user count, please try again later."
                    plain, true)])%list
      /\ calls w'
         = (calls w ++ [CallGetRegisteredUserCount; CallLogAdminAction failed])%list
      /\ admin_logs w'
         = (admin_logs w ++ (if is_ok (db_next 1 w) then [failed] else []))%list).
Proof.
  intros Hfrom Htg. cbv zeta.
  remember (bot_command_count postgrest ctx w) as r eqn:Hr.
  destruct w as [regs logs dbs tgs cs ob con].
  unfold db_next, tg_next in *.
  cbn [registrations db_script tg_script outbox calls admin_logs] in *.
  unfold bot_command_count, log, admin_id, the_from in Hr. rewrite Hfrom in Hr.
  expose_in Hr.
  destruct tgs as [|o tgs]; [| cbn [nth] in Htg; subst o];
    destruct dbs as [|[|e|e] [|[|e'|e'] dbs]]; finish_run Hr;
    (split; [reflexivity |]); split; intros Hdb; try congruence;
    repeat split.
Qed.

Lemma count_reports_rows_witness :
  outbox (snd (bot_command_count postgrest (message_update (Some admin) (Some "/count"))
                 (world_with [mkRegistration 42 (Some "alice") "Alice";
                              mkRegistration 7 None "N/A"] [DbOk; DbError timeout] [])))
  = [(reply "Currently, 2 users are registered." plain, true)].
Proof.
  apply (proj1 (proj1 (proj2 (count_reports_rows
                  (message_update (Some admin) (Some "/count")) admin
                  (world_with [mkRegistration 42 (Some "alice") "Alice";
                               mkRegistration 7 None "N/A"] [DbOk; DbError timeout] [])
                  eq_refl eq_refl)) eq_refl)).
Defined.

(** X11.  One audit record per administrator command.  Whatever the table and
    whatever the database and the transport answer, [/count] and [/list]
    call [logAdminAction] exactly once, and so does [/notify] on every path
    but one: with no message text and the usage hint refused by the
    transport, it calls it not at all. *)
Theorem admin_commands_log_once (from : User) (text : string) (w : World) :
  let ctx := message_update (Some from) (Some text) in
  let logged (run : Js unit) := log_calls (calls (snd (run w))) in
  logged (bot_command_count postgrest ctx) = (log_calls (calls w) + 1)%nat
  /\ logged (bot_command_list postgrest ctx) = (log_calls (calls w) + 1)%nat
  /\ logged (bot_command_notify postgrest ctx)
     = (log_calls (calls w)
        + match trim (substring_from 8 text) with
          | EmptyString => if is_fail (tg_next 0 w) then 0 else 1
          | _ => 1
          end)%nat.
Proof.
  cbv zeta. split; [| split].
  - apply count_logs_once with (from := from). reflexivity.
  - apply list_logs_once with (from := from). reflexivity.
  - apply notify_logs.
Qed.

(** X12.  [/notify] without recipients.  With a message text, when the list
    query fails or the table is empty, no message is sent to anybody,
    whatever the transport answers; the transport delivering, the
    administrator reads the failure text, respectively the "no users" text,
    and the audit record is tagged [notify_failed], respectively
    [notify_attempt_no_users]. *)
Theorem notify_without_recipients (from : User) (text : string) (w : World) :
  trim (substring_from 8 text) <> EmptyString ->
  db_next 0 w <> DbOk \/ registrations w = [] ->
  let w' := snd (bot_command_notify postgrest (message_update (Some from) (Some text)) w) in
  filter is_send (outbox w') = filter is_send (outbox w)
  /\ (tg_next 0 w = TgOk ->
      (db_next 0 w <> DbOk ->
       outbox w'
       = (outbox w
          ++ [(reply "Something went wrong while fetching the user list for notification, please try again later."
                     plain, true)])%list
       /\ calls w'
          = (calls w
             ++ [CallGetRegisteredUsersList;
                 CallLogAdminAction
                   (mkAdminLog (id from) "notify_failed"
                      "Database error fetching user list for broadcast.")])%list)
      /\ (db_next 0 w = DbOk ->
          outbox w'
          = (outbox w
             ++ [(reply "No users are currently registered to notify." plain, true)])%list
          /\ calls w'
             = (calls w
                ++ [CallGetRegisteredUsersList;
                    CallLogAdminAction
                      (mkAdminLog (id from) "notify_attempt_no_users"
                         "No registered users to send broadcast to.")])%list)).
Proof.
  intros Htext Hnone. cbv zeta.
  remember (bot_command_notify postgrest (message_update (Some from) (Some text)) w)
    as r eqn:Hr.
  destruct w as [regs logs dbs tgs cs ob con].
  unfold db_next, tg_next in *.
  cbn [registrations db_script tg_script outbox calls admin_logs] in *.
  unfold bot_command_notify, the_text, log, admin_id, the_from in Hr.
  cbn [ctx_from] in Hr. unfold bind at 1 in Hr. unfold ret at 1 in Hr.
  change (String.length "/notify ") with 8%nat in Hr.
  destruct (trim (substring_from 8 text)) as [|c mt]; [contradiction | clear Htext].
  expose_in Hr.
  assert (Hcases : (exists e, nth 0 dbs DbOk = DbError e)
                   \/ (exists e, nth 0 dbs DbOk = DbThrow e)
                   \/ (nth 0 dbs DbOk = DbOk /\ regs = [])).
  { destruct Hnone as [Hdb | Hregs].
    - destruct (nth 0 dbs DbOk); [congruence | eauto | eauto].
    - destruct (nth 0 dbs DbOk) eqn:Hd; eauto. }
  clear Hnone.
  destruct Hcases as [[e He] | [[e He] | [He ->]]].
  all: destruct dbs as [|d dbs]; cbn [nth] in He; try discriminate He; try subst d.
  all: split_in Hr; finish_run Hr.
  all: rewrite ?filter_app; cbn [filter is_send fst]; rewrite ?app_nil_r.
  all: split; [reflexivity |]; intros Htg; try discriminate Htg.
  all: split; intros Hdb; try congruence; split; reflexivity.
Qed.

Lemma notify_without_recipients_witness :
  outbox (snd (bot_command_notify postgrest
                 (message_update (Some admin) (Some "/notify hello")) (world_of [])))
  = [(reply "No users are currently registered to notify." plain, true)].
Proof.
  apply (proj1 (proj2 (proj2 (notify_without_recipients admin "/notify hello" (world_of [])
                  ltac:(discriminate) (or_intror eq_refl)) eq_refl) eq_refl)).
Defined.

(** ** The text of a broadcast *)

Lemma trimStart_skips_blank (gap s : string) :
  blank gap = true -> trimStart (gap ++ s) = trimStart s.
Proof.
  induction gap as [|c gap IH]; cbn; [reflexivity |].
  intros H. apply andb_prop in H. destruct H as [Hc Hgap].
  rewrite Hc. apply IH, Hgap.
Qed.

Lemma trimStart_clean (s : string) : starts_clean s = true -> trimStart s = s.
Proof.
  destruct s as [|c r]; cbn; [discriminate |].
  intros H. apply negb_true_iff in H. rewrite H. reflexivity.
Qed.

Lemma trimEnd_blank (s : string) : blank s = true -> trimEnd s = EmptyString.
Proof.
  induction s as [|c r IH]; cbn; [reflexivity |].
  intros H. apply andb_prop in H. destruct H as [Hc Hr].
  rewrite (IH Hr), Hc. reflexivity.
Qed.

Lemma trimEnd_clean (s tail : string) :
  ends_clean s = true -> blank tail = true -> trimEnd (s ++ tail) = s.
Proof.
  intros Hs Htail. induction s as [|c r IH]; [discriminate |].
  cbn [append trimEnd]. destruct r as [|c' r'].
  - cbn [append]. rewrite (trimEnd_blank tail Htail).
    cbn in Hs. apply negb_true_iff in Hs. rewrite Hs. reflexivity.
  - rewrite IH by exact Hs. reflexivity.
Qed.

Lemma starts_clean_append (s tail : string) :
  starts_clean s = true -> starts_clean (s ++ tail) = true.
Proof. destruct s; cbn; [discriminate | auto]. Qed.

(** X13.  What [/notify] broadcasts is what was typed after the command.
    For a text made of the command, a gap of at least one white-space code
    unit, a message that neither begins nor ends with white space, and any
    trailing white space: the update is a [/notify] command, and the message
    text that the handler extracts is exactly the message. *)
Theorem notify_extracts_message (me : string) (from : option User) (c : ascii)
    (gap msg tail : string) :
  isWhiteSpace c = true -> blank gap = true ->
  starts_clean msg = true -> ends_clean msg = true ->
  blank tail = true ->
  let text := "/notify" ++ String c gap ++ msg ++ tail in
  is_command me "notify" (message_update from (Some text)) = true
  /\ trim (substring_from (String.length "/notify ") text) = msg.
Proof.
  intros Hc Hgap Hstart Hend Htail. cbv zeta. split.
  - unfold is_command, command_of, bot_command_entity.
    change ("/notify" ++ String c gap ++ msg ++ tail)
      with (String "/"%char ("notify" ++ String c (gap ++ msg ++ tail))).
    cbv beta iota.
    rewrite (take_command_stops "notify" c _ (white_space_ends_command c Hc)).
    reflexivity.
  - cbn [String.length append substring_from]. unfold trim.
    rewrite trimStart_skips_blank by exact Hgap.
    rewrite trimStart_clean by (apply starts_clean_append, Hstart).
    apply trimEnd_clean; assumption.
Qed.

Lemma notify_extracts_message_witness :
  trim (substring_from (String.length "/notify ")
          ("/notify" ++ String " " " " ++ "The app is live!" ++ " "))
  = "The app is live!".
Proof.
  apply (proj2 (notify_extracts_message "PortfolioShowcaseBot" None " " " "
                  "The app is live!" " "
                  eq_refl eq_refl eq_refl eq_refl eq_refl)).
Defined.

(** ** The accept button when things go wrong *)

(** X14.  Accepting when the insert fails.  The press is acknowledged and
    the re-check answers "not registered", but the insert is not carried
    out: the database fails on it, or refuses it because the id is in the
    table after all (the window between re-check and insert).  Then the
    table is unchanged, the insert was called once, and the prompt is edited
    to the registration failure text - not to the confirmation. *)
Theorem accept_insert_failure (ADMIN_ID ADMIN_USERNAME : option string) (me : string) (from : User)
    (w : World) :
  tg_next 0 w = TgOk ->
  fst (isUserRegistered postgrest (id from) w) = Normal (Some false) ->
  db_next 1 w <> DbOk \/ rows_with (id from) (registrations w) <> [] ->
  let w' := snd (handleUpdate postgrest ADMIN_ID ADMIN_USERNAME (cached me)
                   (accept_press from) w) in
  let userData :=
    mkRegistration (id from) (username from) (or_else (first_name from) "N/A") in
  registrations w' = registrations w
  /\ calls w'
     = (calls w ++ [CallIsUserRegistered (id from); CallRegisterUser userData])%list
  /\ exists delivered rest,
       outbox w'
       = (outbox w ++ (answerCbQuery None false, true)
            :: (editMessageText registration_failed Markdown, delivered) :: rest)%list.
Proof.
  intros Hack Hans Hfail. cbv zeta.
  remember (handleUpdate postgrest ADMIN_ID ADMIN_USERNAME (cached me) (accept_press from) w)
    as r eqn:Hr.
  unfold accept_press in Hr.
  destruct (own_press_passes (id from)) as (g & Hmatch & Hguard).
  rewrite handleUpdate_cached in Hr. unfold middleware in Hr.
  cbn [is_command command_of action_match] in Hr.
  rewrite Hmatch in Hr. clear Hmatch.
  rewrite isUserRegistered_answer in Hans.
  destruct w as [regs logs dbs tgs cs ob con].
  unfold tg_next, db_next in *.
  cbn [tg_script db_script registrations calls outbox] in *.
  unfold bot_action_register, bot_catch, the_from in Hr.
  cbn [ctx_from group1 group2] in Hr. expose_in Hr. cbv iota beta in Hr.
  rewrite Hguard in Hr. clear Hguard.
  destruct tgs as [|o tgs]; [| cbn [nth] in Hack; subst o].
  all: destruct dbs as [|[|e|e] dbs]; cbn [nth] in Hans, Hfail;
    try discriminate Hans.
  all: try (destruct (code_differs e PGRST116) eqn:Hcode; [discriminate Hans |]).
  all: run_in Hr; rewrite ?Hcode in Hr; run_in Hr.
  all: destruct (rows_with (id from) regs) as [|? [|? ?]] eqn:Hrows;
    try discriminate Hans; clear Hans; run_in Hr.
  all: try (destruct dbs as [|[|e1|e1] dbs]; cbn [nth] in Hfail);
    try (destruct Hfail as [Hfail | Hfail]; congruence).
  all: run_in Hr; rewrite ?Hrows in Hr; split_in Hr; finish_run Hr.
  all: split; [reflexivity | split; [reflexivity | eexists _, _; reflexivity]].
Qed.

Lemma accept_insert_failure_witness :
  registrations
    (snd (handleUpdate postgrest (Some "1") None the_bot (accept_press alice)
            (world_with [] [DbOk; DbError timeout] [])))
  = [].
Proof.
  assert (Hack : tg_next 0 (world_with [] [DbOk; DbError timeout] []) = TgOk)
    by reflexivity.
  assert (Hans : fst (isUserRegistered postgrest (id alice)
                        (world_with [] [DbOk; DbError timeout] []))
                 = Normal (Some false)) by (vm_compute; reflexivity).
  assert (Hfail : db_next 1 (world_with [] [DbOk; DbError timeout] []) <> DbOk
                  \/ rows_with (id alice)
                       (registrations (world_with [] [DbOk; DbError timeout] []))
                     <> []) by (left; vm_compute; discriminate).
  exact (proj1 (accept_insert_failure (Some "1") None "PortfolioShowcaseBot" alice
                  (world_with [] [DbOk; DbError timeout] []) Hack Hans Hfail)).
Defined.

(** A handler that always completes makes the whole [try]/[catch]
    complete. *)
Lemma try_catch_completes (m : Js unit) (h : JsError -> Js unit) (w : World) :
  (forall e w1, fst (h e w1) = Normal tt) ->
  fst (try_catch m h w) = Normal tt.
Proof.
  intros Hh. unfold try_catch.
  destruct (m w) as [[[]|e] w1]; [reflexivity | apply Hh].
Qed.

(** X15.  Faults of the button handler.  With any database client and any
    match of the pattern: once the first request to the transport (the
    acknowledgement of the press, or the notice to a stranger) is accepted,
    the handler completes normally, whatever fails later.  When that first
    request is refused, the fault leaves the handler, and the handler has
    done nothing else: no gateway call, no console line, one refused
    request in the outbox. *)
Theorem button_faults_contained (supabase : Supabase) (from : User)
    (data : option string) (m : RegExpMatch) (w : World) :
  let ctx := callback_query_update from data in
  let out := bot_action_register supabase ctx m w in
  (tg_next 0 w = TgOk -> fst out = Normal tt)
  /\ (forall e, tg_next 0 w = TgFail e ->
        fst out = Throw e
        /\ calls (snd out) = calls w
        /\ registrations (snd out) = registrations w
        /\ admin_logs (snd out) = admin_logs w
        /\ console (snd out) = console w
        /\ exists op, outbox (snd out) = (outbox w ++ [(op, false)])%list).
Proof.
  intros ctx out.
  assert (Hout : out = bot_action_register supabase ctx m w) by reflexivity.
  clearbody out. subst ctx.
  unfold bot_action_register, the_from, tg_next in *. cbn [ctx_from] in Hout.
  unfold bind at 1, ret at 1 in Hout. cbv beta iota in Hout.
  match type of Hout with
  | context [if ?g then ctx_answerCbQuery _ _ else _] => destruct g
  end.
  - unfold ctx_answerCbQuery, transport in Hout.
    destruct (tg_script w) as [|[|e0] rest]; subst out; cbn [nth fst snd];
      (split; [intros H; first [reflexivity | discriminate H] |]);
      intros e H; try discriminate H.
    injection H as <-. cbn. repeat split. eexists; reflexivity.
  - unfold bind at 1, ctx_answerCbQuery at 1, transport at 1 in Hout.
    destruct (tg_script w) as [|[|e0] rest]; cbv beta iota in Hout; subst out;
      cbn [nth]; (split; [intros H |]); try (intros e H; try discriminate H).
    + apply try_catch_completes. intros e w1. reflexivity.
    + apply try_catch_completes. intros e w1. reflexivity.
    + discriminate H.
    + injection H as <-. cbn. repeat split. eexists; reflexivity.
Qed.

Lemma button_faults_contained_witness :
  fst (bot_action_register postgrest (callback_query_update alice (Some "register_yes:42"))
         (mkMatch yes (Some "42"))
         (world_with [] [DbThrow network_down] [TgOk; TgFail blocked; TgFail blocked]))
  = Normal tt.
Proof.
  apply (proj1 (button_faults_contained postgrest alice (Some "register_yes:42")
                  (mkMatch yes (Some "42"))
                  (world_with [] [DbThrow network_down]
                     [TgOk; TgFail blocked; TgFail blocked]))).
  reflexivity.
Defined.

(** X16.  What the webhook answers.  A request that is not a POST with a
    body is answered 200 with the information text, and the world is left
    as it is.  A POST with a body runs the update.  Once the process holds
    the identity of the bot, [bot.handleUpdate] completes normally on every
    update, so the [catch] block of the endpoint is not entered and the
    answer is [200 OK]; the same on the first update of a process when the
    request for the identity is accepted.  When that request is refused,
    nothing is dispatched: the endpoint's [catch] writes its line and
    answers 500 with the message of the fault (the fixed text when the
    message is empty). *)
Theorem webhook_answers (supabase : Supabase)
    (ADMIN_ID ADMIN_USERNAME : option string) (me : string) (req : Request)
    (res : ServerResponse) (w : World) :
  headersSent res = false ->
  (forall bot,
      String.eqb (method req) "POST" = false \/ body req = None ->
      module_exports supabase ADMIN_ID ADMIN_USERNAME bot req res w
      = (Normal (respond 200 "text/plain" (text_plain endpoint_info)), w))
  /\ (forall update,
        method req = "POST" -> body req = Some update ->
        module_exports supabase ADMIN_ID ADMIN_USERNAME (cached me) req res w
        = (Normal (respond 200 "text/plain" (text_plain "OK")),
           snd (handleUpdate supabase ADMIN_ID ADMIN_USERNAME (cached me) update w))
        /\ (tg_next 0 w = TgOk ->
            module_exports supabase ADMIN_ID ADMIN_USERNAME (uncached me) req res w
            = (Normal (respond 200 "text/plain" (text_plain "OK")),
               snd (handleUpdate supabase ADMIN_ID ADMIN_USERNAME (cached me) update
                      (snd (transport getMe w)))))
        /\ (forall e,
              tg_next 0 w = TgFail e ->
              module_exports supabase ADMIN_ID ADMIN_USERNAME (uncached me) req res w
              = (Normal (respond 500 "application/json"
                           (json_failure
                              (match message e with
                               | EmptyString => "Internal Server Error"
                               | text => text
                               end))),
                 mkWorld (registrations w) (admin_logs w) (db_script w)
                   (tl (tg_script w)) (calls w) (outbox w ++ [(getMe, false)])
                   (console w
                    ++ [("[WEBHOOK ERROR] Error handling update: " ++ message e)%string])))).
Proof.
  intros Hres. split.
  - intros bot Hnot. unfold module_exports, try_catch.
    destruct Hnot as [Hm | Hb]; [rewrite Hm; reflexivity |].
    rewrite Hb. destruct (String.eqb (method req) "POST"); reflexivity.
  - intros update Hm Hb.
    assert (Hrun : forall v,
              module_exports supabase ADMIN_ID ADMIN_USERNAME (cached me) req res v
              = (Normal (respond 200 "text/plain" (text_plain "OK")),
                 snd (handleUpdate supabase ADMIN_ID ADMIN_USERNAME (cached me) update v))).
    { intros v. unfold module_exports. rewrite Hm, Hb.
      change (String.eqb "POST" "POST") with true. cbv iota.
      unfold try_catch, bind.
      pose proof (proj1 (handleUpdate_catches supabase ADMIN_ID ADMIN_USERNAME me update v))
        as Hfst.
      destruct (handleUpdate supabase ADMIN_ID ADMIN_USERNAME (cached me) update v)
        as [c v1].
      cbn [fst snd] in *. subst c. rewrite Hres. reflexivity. }
    split; [apply Hrun | split].
    + intros Hok. rewrite <- Hrun.
      unfold module_exports. rewrite Hm, Hb.
      change (String.eqb "POST" "POST") with true. cbv iota.
      unfold try_catch. unfold bind at 1 3.
      rewrite handleUpdate_uncached, Hok. reflexivity.
    + intros e He. unfold module_exports. rewrite Hm, Hb.
      change (String.eqb "POST" "POST") with true. cbv iota.
      unfold try_catch. unfold bind at 1.
      rewrite handleUpdate_uncached, He. cbv iota beta.
      unfold bind, console_error, ret. rewrite Hres. cbn [negb].
      unfold tg_next in He. unfold transport.
      destruct (tg_script w) as [|[|e'] rest]; cbn [nth] in He; try discriminate He.
      injection He as ->. cbn [snd tl registrations admin_logs db_script tg_script
                               calls outbox console].
      unfold or_else. destruct (message e); reflexivity.
Qed.

Lemma webhook_answers_witness :
  fst (module_exports postgrest (Some "1") None the_bot
         (mkRequest "POST" (Some (accept_press alice)))
         (mkServerResponse false 0 None None)
         (world_with [] [DbThrow network_down] [TgFail blocked]))
  = Normal (respond 200 "text/plain" (text_plain "OK"))
  /\ fst (module_exports postgrest (Some "1") None (uncached "PortfolioShowcaseBot")
            (mkRequest "POST" (Some (accept_press alice)))
            (mkServerResponse false 0 None None)
            (world_with [] [] [TgFail network_down]))
     = Normal (respond 500 "application/json" (json_failure "fetch failed")).
Proof.
  split.
  - exact (f_equal fst
             (proj1 (proj2 (webhook_answers postgrest (Some "1") None
                              "PortfolioShowcaseBot"
                              (mkRequest "POST" (Some (accept_press alice)))
                              (mkServerResponse false 0 None None)
                              (world_with [] [DbThrow network_down] [TgFail blocked])
                              eq_refl)
                       (accept_press alice) eq_refl eq_refl))).
  - exact (f_equal fst
             (proj2 (proj2 (proj2 (webhook_answers postgrest (Some "1") None
                                     "PortfolioShowcaseBot"
                                     (mkRequest "POST" (Some (accept_press alice)))
                                     (mkServerResponse false 0 None None)
                                     (world_with [] [] [TgFail network_down])
                                     eq_refl)
                              (accept_press alice) eq_refl eq_refl))
                network_down eq_refl)).
Defined.

Lemma app_one_neq {A} (l : list A) (x : A) : (l ++ [x])%list <> l.
Proof.
  intros H. apply (f_equal (@List.length A)) in H.
  rewrite length_app in H. cbn in H. lia.
Qed.

(** X17.  The guard of the message handler.  The earlier copy of the bot
    reads [ctx.message.text.startsWith] with no check that there is a text,
    and replies without looking at the sender; the final copy asks [text &&]
    first, and reads [ctx.from.id] before it replies.  The two handlers do
    the same on a message exactly when the message has a non-empty text
    that is a command, or a non-empty text and a sender.  On a message
    without text the earlier one throws where the final one does nothing;
    on an empty text the earlier one sends the hint where the final one
    does not; and on a text without sender that is no command the earlier
    one sends the hint where the final one throws. *)
Theorem message_guard_difference (from : option User) (text : option string)
    (w : World) :
  bot_on_message_earlier (message_update from text) w
  = bot_on_message (message_update from text) w
  <-> exists c s,
        text = Some (String c s)
        /\ (startsWith (String c s) "/" = true \/ from <> None).
Proof.
  split.
  - destruct text as [[|c s]|].
    + unfold bot_on_message_earlier, bot_on_message, detached, ctx_reply, transport.
      cbn -[app].
      destruct (tg_script w) as [|[|e] rest]; cbn [snd]; intros H; exfalso;
        injection H as H; apply (f_equal outbox) in H; cbn [outbox] in H;
        exact (app_one_neq _ _ H).
    + intros H. exists c, s. split; [reflexivity |].
      destruct (startsWith (String c s) "/") eqn:Hslash; [left; reflexivity | right].
      intros ->. revert H.
      unfold bot_on_message_earlier, bot_on_message, the_from.
      rewrite Hslash. cbn [truthy andb negb ctx_from].
      unfold bind, throw, detached. discriminate.
    + cbn. unfold throw, ret. intros H. discriminate H.
  - intros (c & s & -> & Hsame). unfold bot_on_message_earlier, bot_on_message.
    cbn [truthy andb].
    destruct (startsWith (String c s) "/"); [reflexivity |].
    destruct Hsame as [Hsame | Hsame]; [discriminate Hsame |].
    destruct from as [f|]; [reflexivity | contradiction].
Qed.

Lemma message_guard_difference_witness :
  bot_on_message_earlier (message_update (Some alice) (Some "hello")) (world_with [] [] [])
  = bot_on_message (message_update (Some alice) (Some "hello")) (world_with [] [] []).
Proof.
  apply (proj2 (message_guard_difference (Some alice) (Some "hello")
                  (world_with [] [] []))).
  exists "h"%char, "ello". split; [reflexivity | right; discriminate].
Defined.

(** X18.  The diagnostic bot inserts after a failed lookup.  Its button
    handler tests [if (alreadyRegistered)], and the error sentinel [null] is
    falsy like [false]: when the press is acknowledged and the membership
    check fails, the handler goes on to call [registerUser], and with the
    insert answered and the id not in the table the user is registered and
    reads the success text.  (The final bot stops at the failed check.) *)
Theorem diagnostic_button_inserts_after_failed_lookup (from : User)
    (data : option string) (w : World) :
  tg_next 0 w = TgOk ->
  fst (isUserRegistered postgrest (id from) w) = Normal None ->
  let w' := snd (bot_action_confirm_registration postgrest
                   (callback_query_update from data) w) in
  let userData :=
    mkRegistration (id from) (username from) (or_else (first_name from) "N/A") in
  calls w'
  = (calls w ++ [CallIsUserRegistered (id from); CallRegisterUser userData])%list
  /\ (db_next 1 w = DbOk ->
      rows_with (id from) (registrations w) = [] ->
      registrations w' = (registrations w ++ [userData])%list
      /\ exists delivered rest,
           outbox w'
           = (outbox w
              ++ (answerCbQuery (Some "Processing registration...") false, true)
              :: (editMessageText (test_successful (or_else (first_name from) "there"))
                    plain, delivered) :: rest)%list).
Proof.
  intros Hack Hans. cbv zeta.
  remember (bot_action_confirm_registration postgrest
              (callback_query_update from data) w) as r eqn:Hr.
  rewrite isUserRegistered_answer in Hans.
  destruct w as [regs logs dbs tgs cs ob con].
  unfold tg_next, db_next in *.
  cbn [tg_script db_script registrations calls outbox] in *.
  unfold bot_action_confirm_registration, the_from in Hr.
  cbn [ctx_from] in Hr. expose_in Hr. cbv iota beta in Hr.
  destruct tgs as [|o tgs]; [| cbn [nth] in Hack; subst o].
  all: destruct dbs as [|[|e|e] dbs]; cbn [nth] in Hans |- *;
    try discriminate Hans.
  all: try (destruct (code_differs e PGRST116) eqn:Hcode; [| discriminate Hans]).
  all: clear Hans; run_in Hr; rewrite ?Hcode in Hr; run_in Hr.
  all: split; [| intros Hdb Hrows; try (destruct dbs as [|o1 dbs]; cbn [nth] in Hdb;
                                        [| subst o1])].
  all: split_in Hr; rewrite ?Hrows in Hr;
    remember (rows_with (id from) regs) as rw eqn:Hrw in Hr; clear Hrw;
    split_in Hr; finish_run Hr.
  all: first [reflexivity | split; [reflexivity | eexists _, _; reflexivity]].
Qed.

Lemma diagnostic_button_inserts_after_failed_lookup_witness :
  registrations
    (snd (bot_action_confirm_registration postgrest
            (callback_query_update alice (Some "confirm_registration"))
            (world_with [] [DbThrow network_down] [])))
  = [mkRegistration 42 (Some "alice") "Alice"].
Proof.
  assert (Hack : tg_next 0 (world_with [] [DbThrow network_down] []) = TgOk)
    by reflexivity.
  assert (Hans : fst (isUserRegistered postgrest (id alice)
                        (world_with [] [DbThrow network_down] []))
                 = Normal None) by (vm_compute; reflexivity).
  exact (proj1 (proj2 (diagnostic_button_inserts_after_failed_lookup alice
                         (Some "confirm_registration")
                         (world_with [] [DbThrow network_down] []) Hack Hans)
                  eq_refl eq_refl)).
Defined.

(** X19.  Pressing accept twice.  After a press that registered the user, a
    second press of the same button (acknowledged, its re-check answered)
    finds the row: it does not call the insert, leaves the table with the
    one row of the first press, and edits the prompt to the "already
    registered" text. *)
Theorem accept_twice_registers_once (ADMIN_ID ADMIN_USERNAME : option string) (me : string)
    (from : User) (w : World) :
  let press := handleUpdate postgrest ADMIN_ID ADMIN_USERNAME (cached me) (accept_press from) in
  let w1 := snd (press w) in
  let w2 := snd (press w1) in
  let userData :=
    mkRegistration (id from) (username from) (or_else (first_name from) "N/A") in
  rows_with (id from) (registrations w) = [] ->
  tg_next 0 w = TgOk -> db_next 0 w = DbOk -> db_next 1 w = DbOk ->
  tg_next 0 w1 = TgOk -> db_next 0 w1 = DbOk ->
  registrations w2 = (registrations w ++ [userData])%list
  /\ calls w2
     = (calls w ++ [CallIsUserRegistered (id from); CallRegisterUser userData;
                    CallIsUserRegistered (id from)])%list
  /\ exists delivered rest,
       outbox w2
       = (outbox w1 ++ (answerCbQuery None false, true)
            :: (editMessageText already_registered Markdown, delivered) :: rest)%list.
Proof.
  intros press w1 w2 userData Hrows Htg Hdb0 Hdb1 Htg1 Hdb01.
  assert (Hfirst : fst (isUserRegistered postgrest (id from) w) = Normal (Some false)).
  { rewrite isUserRegistered_answer, Hdb0, Hrows. reflexivity. }
  destruct (accept_outcomes ADMIN_ID ADMIN_USERNAME me from w Htg) as (_ & _ & H3).
  destruct (H3 Hfirst) as (Hcalls1 & Hins). clear H3.
  destruct (Hins Hdb1 Hrows) as (Hregs1 & _). clear Hins.
  fold press in Hcalls1, Hregs1. fold w1 in Hcalls1, Hregs1. fold userData in Hcalls1, Hregs1.
  assert (Hsecond : fst (isUserRegistered postgrest (id from) w1) = Normal (Some true)).
  { rewrite isUserRegistered_answer, Hdb01, Hregs1.
    rewrite (rows_with_append (id from) (registrations w) userData Hrows eq_refl).
    reflexivity. }
  destruct (accept_outcomes ADMIN_ID ADMIN_USERNAME me from w1 Htg1) as (_ & H2 & _).
  destruct (H2 Hsecond) as (Hcalls2 & Hregs2 & Hedit). clear H2.
  fold press in Hcalls2, Hregs2, Hedit. fold w2 in Hcalls2, Hregs2, Hedit.
  split; [| split].
  - rewrite Hregs2. exact Hregs1.
  - rewrite Hcalls2, Hcalls1, <- app_assoc. reflexivity.
  - exact Hedit.
Qed.

Lemma accept_twice_registers_once_witness :
  registrations
    (snd (handleUpdate postgrest (Some "1") None the_bot (accept_press alice)
            (snd (handleUpdate postgrest (Some "1") None the_bot (accept_press alice)
                    (world_with [] [] [])))))
  = [mkRegistration 42 (Some "alice") "Alice"].
Proof.
  assert (H0 : rows_with (id alice) (registrations (world_with [] [] [])) = [])
    by reflexivity.
  assert (H1 : tg_next 0 (world_with [] [] []) = TgOk) by reflexivity.
  assert (H2 : db_next 0 (world_with [] [] []) = DbOk) by reflexivity.
  assert (H3 : db_next 1 (world_with [] [] []) = DbOk) by reflexivity.
  assert (H4 : tg_next 0 (snd (handleUpdate postgrest (Some "1") None the_bot (accept_press alice)
                                 (world_with [] [] []))) = TgOk)
    by (vm_compute; reflexivity).
  assert (H5 : db_next 0 (snd (handleUpdate postgrest (Some "1") None the_bot (accept_press alice)
                                 (world_with [] [] []))) = DbOk)
    by (vm_compute; reflexivity).
  exact (proj1 (accept_twice_registers_once (Some "1") None "PortfolioShowcaseBot" alice
                  (world_with [] [] [])
                  H0 H1 H2 H3 H4 H5)).
Defined.

(** X20.  A refused reply of [/count] or [/list] is logged.  When the
    transport refuses the reply of the command - whatever the query had
    answered and whatever the table holds - the handler completes normally:
    it tries the generic failure text, and hands one record tagged
    [*_failed] with the fault's message to the gateway.  The table is not
    changed. *)
Theorem refused_reply_is_logged (ctx : Update) (from : User) (e : JsError) (w : World) :
  ctx_from ctx = Some from ->
  tg_next 0 w = TgFail e ->
  let after (run : Js unit) (query : GatewayCall) (tag : string) :=
    fst (run w) = Normal tt
    /\ registrations (snd (run w)) = registrations w
    /\ calls (snd (run w))
       = (calls w
          ++ [query;
              CallLogAdminAction
                (mkAdminLog (id from) tag ("Unhandled error: " ++ message e))])%list
    /\ exists text extra delivered,
         outbox (snd (run w))
         = (outbox w ++ [(reply text extra, false);
                         (reply generic_failure plain, delivered)])%list in
  after (bot_command_count postgrest ctx) CallGetRegisteredUserCount "count_users_failed"
  /\ after (bot_command_list postgrest ctx) CallGetRegisteredUsersList "list_users_failed".
Proof.
  intros Hfrom Htg. cbv beta zeta.
  remember (bot_command_count postgrest ctx w) as r eqn:Hr.
  remember (bot_command_list postgrest ctx w) as r' eqn:Hr'.
  destruct w as [regs logs dbs tgs cs ob con].
  unfold tg_next in Htg. cbn [tg_script registrations calls outbox] in *.
  destruct tgs as [|o tgs]; cbn [nth] in Htg; [discriminate Htg | subst o].
  unfold bot_command_count, log, admin_id, the_from in Hr.
  unfold bot_command_list, log, admin_id, the_from in Hr'.
  rewrite Hfrom in Hr, Hr'. expose_in Hr. expose_in Hr'.
  split.
  - clear Hr' r'. split_in Hr; finish_run Hr;
      (split; [reflexivity | split; [reflexivity | split; [reflexivity |]]]);
      eexists _, _, _; reflexivity.
  - clear Hr r. destruct regs as [|row regs]; split_in Hr'; finish_run Hr';
      (split; [reflexivity | split; [reflexivity | split; [reflexivity |]]]);
      eexists _, _, _; reflexivity.
Qed.

Lemma refused_reply_is_logged_witness :
  calls (snd (bot_command_count postgrest (message_update (Some admin) (Some "/count"))
                (world_with [] [] [TgFail blocked])))
  = [CallGetRegisteredUserCount;
     CallLogAdminAction
       (mkAdminLog 1 "count_users_failed" ("Unhandled error: " ++ message blocked))].
Proof.
  exact (proj1 (proj2 (proj2 (proj1
           (refused_reply_is_logged (message_update (Some admin) (Some "/count")) admin
              blocked (world_with [] [] [TgFail blocked]) eq_refl eq_refl))))).
Defined.
